(** * ExcelDataTransformer: a shallow embedding and its properties

    The development follows src/ExcelDataTransformer.py: the marker based
    table extraction ([_load_excel]), the filter ([filter_data]), the
    format detector ([detect_file_format]) and the read-merge-write of
    the structured document ([update_output_file]).

    Python strings are modelled as [string], one [ascii] per code point
    below 256.  The libraries the program calls (pandas, json, yaml) are
    modelled by the functions of the modules [Py] and [Pandas] below, next
    to a reference to the library behaviour they stand for. *)

From Stdlib Require Import ZArith List Lia Bool Ascii String DecimalString.
From stdpp Require Import gmap strings.
Import ListNotations.

Local Open Scope string_scope.
Local Open Scope Z_scope.

(** ** Python text primitives *)

Module Py.

(** [str.isspace] on one code point below 256: TAB..CR, FS..US, space,
    NEL (0x85) and NBSP (0xA0). *)
Definition isspace (c : ascii) : bool :=
  let n := nat_of_ascii c in
  ((9 <=? n) && (n <=? 13) || (28 <=? n) && (n <=? 32)
   || (n =? 133) || (n =? 160))%nat.

Fixpoint lstrip (s : string) : string :=
  match s with
  | String c r => if isspace c then lstrip r else s
  | EmptyString => EmptyString
  end.

(** Trailing white space: a character is kept when it is not white
    space or when something that is kept follows it. *)
Fixpoint rstrip (s : string) : string :=
  match s with
  | EmptyString => EmptyString
  | String c r =>
      match rstrip r with
      | EmptyString => if isspace c then EmptyString else String c EmptyString
      | r' => String c r'
      end
  end.

(** [str.strip()] *)
Definition strip (s : string) : string := rstrip (lstrip s).

(** [str.startswith(p)] *)
Fixpoint startswith (p s : string) : bool :=
  match p, s with
  | EmptyString, _ => true
  | String a p', String b s' => Ascii.eqb a b && startswith p' s'
  | String _ _, EmptyString => false
  end.

(** [c in s] for a one-character [c] *)
Fixpoint contains (c : ascii) (s : string) : bool :=
  match s with
  | EmptyString => false
  | String a r => Ascii.eqb a c || contains c r
  end.

(** [str.lower()] on code points below 256: A..Z and the Latin-1 capitals
    0xC0..0xDE (without the multiplication sign 0xD7) move up by 32. *)
Definition lower_char (c : ascii) : ascii :=
  let n := nat_of_ascii c in
  if ((65 <=? n) && (n <=? 90)
      || (192 <=? n) && (n <=? 222) && negb (n =? 215))%nat
  then ascii_of_nat (n + 32) else c.

Fixpoint lower (s : string) : string :=
  match s with
  | EmptyString => EmptyString
  | String c r => String (lower_char c) (lower r)
  end.

Definition LF : ascii := ascii_of_nat 10.
Definition CR : ascii := ascii_of_nat 13.

(** [f.readline()] on a file opened in text mode with universal
    newlines: the characters up to the first line end (LF, CR or CRLF),
    the line end itself being returned as one LF. *)
Fixpoint readline (s : string) : string :=
  match s with
  | EmptyString => EmptyString
  | String c r =>
      if (Ascii.eqb c LF || Ascii.eqb c CR)%bool
      then String LF EmptyString
      else String c (readline r)
  end.

(** [s.split(",")]: never empty, keeps empty fields, strips nothing. *)
Fixpoint split (sep : ascii) (s : string) : list string :=
  match s with
  | EmptyString => [EmptyString]
  | String c r =>
      if Ascii.eqb c sep then EmptyString :: split sep r
      else match split sep r with
           | w :: ws => String c w :: ws
           | [] => [String c EmptyString]
           end
  end.

(** Decimal text of an integer, as [str(int)] and [json] print it. *)
Definition str_of_Z (z : Z) : string := NilZero.string_of_int (Z.to_int z).

End Py.

(** ** Exceptions

    One constructor per [raise] of the source (with the values its
    f-string interpolates) and per library exception the program can
    meet. *)

Inductive exn : Type :=
  | EmptyOrCorrupted (file_path : string)
      (* ValueError(f"File {file_path} is empty or corrupted") *)
  | UnknownFileFormat
      (* ValueError("Unknown file format") *)
  | CannotUpdateCSV
      (* ValueError("Cannot update CSV files incrementally") *)
  | ErrorReadingOrParsing (output_file : string) (cause : exn)
      (* ValueError(f"Error reading or parsing {output_file}: {e}") *)
  | NoHeadersFound (header_keyword : string)
      (* ValueError(f"No '{header_keyword}' headers found in ...") *)
  | TypeError (what : string)
  | KeyError (key : string)
  | IndexError
  | AttributeError (what : string)
  | SyntaxError
  | UndefinedVariableError (name : string)   (* pandas, a NameError *)
  | DecodeError                              (* json / yaml parse failure *)
  | FileNotFoundError (file_path : string).

Inductive result (A : Type) : Type :=
  | Ok (a : A)
  | Raise (e : exn).
Arguments Ok {A} a.
Arguments Raise {A} e.

Definition bind {A B} (r : result A) (k : A -> result B) : result B :=
  match r with
  | Ok a => k a
  | Raise e => Raise e
  end.

Notation "'let*' x ':=' r 'in' k" := (bind r (fun x => k))
  (at level 10, x name, r at level 100, k at level 200).
Notation "'let*' '_' ':=' r 'in' k" := (bind r (fun _ => k))
  (at level 10, r at level 100, k at level 200).

Definition is_ok {A} (r : result A) : bool :=
  match r with Ok _ => true | Raise _ => false end.

(** ** FormatCodec: detection *)

Inductive file_format : Type := json | yaml | csv.

(** The files the program sees: path to text. *)
Abbreviation filesystem := (gmap string string).

(** The body of [detect_file_format] once the first line is read and
    stripped (lines 106-116). *)
Definition classify_first_line (file_path first_line : string)
  : result file_format :=
  if String.eqb first_line EmptyString then Raise (EmptyOrCorrupted file_path)
  else if Py.startswith "{" first_line then Ok json
  else if Py.startswith "---" first_line then Ok yaml
  else if (Py.contains "," first_line
           || Py.startswith "sep=" (Py.lower first_line))%bool then Ok csv
  else Raise UnknownFileFormat.

Definition detect_text (file_path text : string) : result file_format :=
  let first_line := Py.strip (Py.readline text) in
  classify_first_line file_path first_line.

(** [detect_file_format(file_path)], lines 101-116. *)
Definition detect_file_format (fs : filesystem) (file_path : string)
  : result file_format :=
  match fs !! file_path with
  | None => Raise (FileNotFoundError file_path)
  | Some text => detect_text file_path text
  end.

(** ** Tables

    A cell of a sheet is a string, an integer or the missing value NaN;
    a label (of a column, or of a row in the index) is a string or an
    integer. *)

Inductive cell : Type :=
  | CStr (s : string)
  | CInt (z : Z)
  | CNaN.

Inductive label : Type :=
  | LStr (s : string)
  | LInt (z : Z).

Definition label_eqb (a b : label) : bool :=
  match a, b with
  | LStr x, LStr y => String.eqb x y
  | LInt x, LInt y => Z.eqb x y
  | _, _ => false
  end.

(** A pandas DataFrame: the column labels, the index (one label per row)
    and the rows, each row holding one cell per column. *)
Record DataFrame : Type := mkDataFrame {
  columns : list label;
  index : list label;
  rows : list (list cell)
}.

Module Pandas.

(** [RangeIndex(n)] *)
Definition RangeIndex (n : nat) : list label :=
  map (fun i => LInt (Z.of_nat i)) (seq 0 n).

(** The bound of a slice on a sequence of length [n], as
    [slice.indices] computes it for step 1: a negative bound counts
    from the end, and every bound is clipped to [0, n]. *)
Definition slice_bound (n : Z) (default : Z) (b : option Z) : Z :=
  match b with
  | None => default
  | Some i => if i <? 0 then Z.max (i + n) 0 else Z.min i n
  end.

(** [l[start:stop]] *)
Definition py_slice {A} (l : list A) (start stop : option Z) : list A :=
  let n := Z.of_nat (length l) in
  let lo := slice_bound n 0 start in
  let hi := slice_bound n n stop in
  firstn (Z.to_nat (hi - lo)) (skipn (Z.to_nat lo) l).

(** [df.iloc[start:stop]]: the rows of the slice with their labels. *)
Definition iloc_slice (df : DataFrame) (start stop : option Z) : DataFrame :=
  {| columns := columns df;
     index := py_slice (index df) start stop;
     rows := py_slice (rows df) start stop |}.

(** [df.iloc[:, 0] == keyword], one boolean per row: a cell equals a
    string when it is that string. *)
Definition cell_is (keyword : string) (c : cell) : bool :=
  match c with
  | CStr s => String.eqb s keyword
  | _ => false
  end.

Definition first_column_is (keyword : string) (row : list cell) : bool :=
  match row with
  | c :: _ => cell_is keyword c
  | [] => false
  end.

(** [df[mask].index.tolist()] for a frame with a RangeIndex: the
    positions of the rows the mask keeps, ascending. *)
Fixpoint positions_from (i : nat) (keyword : string) (rs : list (list cell))
  : list nat :=
  match rs with
  | [] => []
  | r :: rs' =>
      if first_column_is keyword r
      then i :: positions_from (S i) keyword rs'
      else positions_from (S i) keyword rs'
  end.

(** [df.reset_index(drop=True)] *)
Definition reset_index (df : DataFrame) : DataFrame :=
  {| columns := columns df;
     index := RangeIndex (length (rows df));
     rows := rows df |}.

(** [df.iloc[p]]: row [p] as a Series, its index being [df.columns]. *)
Definition iloc_row (df : DataFrame) (p : nat) : list (label * cell) :=
  combine (columns df) (nth p (rows df) []).

(** [series.reindex(idx)]: the value stored under each label of [idx],
    NaN for a label the series does not have. *)
Fixpoint series_get (ser : list (label * cell)) (l : label) : cell :=
  match ser with
  | [] => CNaN
  | (k, v) :: ser' => if label_eqb k l then v else series_get ser' l
  end.

Definition reindex (ser : list (label * cell)) (idx : list label) : list cell :=
  map (series_get ser) idx.

(** Writing the values [vs] into the first column, row by row. *)
Fixpoint set_first_column (rs : list (list cell)) (vs : list cell)
  : list (list cell) :=
  match rs, vs with
  | r :: rs', v :: vs' => (v :: tl r) :: set_first_column rs' vs'
  | _, _ => []
  end.

(** [frame.assign] called with the keyword arguments [{key: ser}], where
    [key] is the label of the first column of [frame] and [ser] a Series.
    A keyword of a call has to be a string, and [assign] is declared as
    [def assign(self, **kwargs)], so the keyword [self] collides with the
    receiver of the call: both are a TypeError of the call itself.  The
    labels of a frame [pd.read_excel] returned are distinct, so [key]
    labels the first column only.  The Series is aligned on the index of
    the frame; a frame without rows
    first takes the index of the Series (one row of NaN per label), which
    is what [DataFrame.__setitem__] does through [_ensure_valid_index]. *)
Definition assign_first_column (frame : DataFrame) (key : label)
    (ser : list (label * cell)) : result DataFrame :=
  match key with
  | LInt _ => Raise (TypeError "keywords must be strings")
  | LStr name =>
      if String.eqb name "self"
      then Raise (TypeError "got multiple values for argument 'self'")
      else
        let frame' :=
          match rows frame, ser with
          | [], _ :: _ =>
              {| columns := columns frame;
                 index := map fst ser;
                 rows := map (fun _ => map (fun _ => CNaN) (columns frame)) ser |}
          | _, _ => frame
          end in
        Ok {| columns := columns frame';
              index := index frame';
              rows := set_first_column (rows frame')
                        (reindex ser (index frame')) |}
  end.

(** [pd.concat(tables, ignore_index=True)] for frames that have the
    same columns. *)
Definition concat (cols : list label) (tables : list DataFrame) : DataFrame :=
  let rs := List.concat (map rows tables) in
  {| columns := cols; index := RangeIndex (length rs); rows := rs |}.

End Pandas.

(** [for x in xs], stopping at the first exception. *)
Fixpoint map_result {A B} (f : A -> result B) (xs : list A) : result (list B) :=
  match xs with
  | [] => Ok []
  | x :: xs' =>
      let* y := f x in
      let* ys := map_result f xs' in
      Ok (y :: ys)
  end.

(** ** Python values

    The values that travel through the merge: None, integers, strings,
    lists, dicts (insertion ordered, keyed by None, an integer or a
    string) and DataFrames.  Floats and booleans are left out. *)

Set Warnings "-register-all".

Inductive pykey : Type :=
  | KNone
  | KInt (z : Z)
  | KStr (s : string).

Inductive pyval : Type :=
  | VNone
  | VInt (z : Z)
  | VStr (s : string)
  | VList (items : list pyval)
  | VDict (entries : list (pykey * pyval))
  | VFrame (df : DataFrame).

Definition pykey_eqb (a b : pykey) : bool :=
  match a, b with
  | KNone, KNone => true
  | KInt x, KInt y => Z.eqb x y
  | KStr x, KStr y => String.eqb x y
  | _, _ => false
  end.

Module Dict.

(** [d.get(k)] *)
Fixpoint get (d : list (pykey * pyval)) (k : pykey) : option pyval :=
  match d with
  | [] => None
  | (k', v) :: d' => if pykey_eqb k' k then Some v else get d' k
  end.

(** [d[k] = v]: an existing key keeps its place, a new one goes last. *)
Fixpoint set (d : list (pykey * pyval)) (k : pykey) (v : pyval)
  : list (pykey * pyval) :=
  match d with
  | [] => [(k, v)]
  | (k', v') :: d' =>
      if pykey_eqb k' k then (k', v) :: d' else (k', v') :: set d' k v
  end.

(** [hash(v)], needed of every key: lists, dicts and DataFrames are
    unhashable. *)
Definition hashable (v : pyval) : result pykey :=
  match v with
  | VNone => Ok KNone
  | VInt z => Ok (KInt z)
  | VStr s => Ok (KStr s)
  | VList _ => Raise (TypeError "unhashable type: 'list'")
  | VDict _ => Raise (TypeError "unhashable type: 'dict'")
  | VFrame _ => Raise (TypeError "unhashable type: 'DataFrame'")
  end.

(** [v[name]] for a string [name] *)
Definition getitem (v : pyval) (name : string) : result pyval :=
  match v with
  | VDict d =>
      match get d (KStr name) with
      | Some x => Ok x
      | None => Raise (KeyError name)
      end
  | VStr _ => Raise (TypeError "string indices must be integers")
  | VList _ => Raise (TypeError "list indices must be integers or slices")
  | VNone | VInt _ => Raise (TypeError "object is not subscriptable")
  | VFrame df =>
      if existsb (label_eqb (LStr name)) (columns df)
      then Raise (TypeError "unhashable type: 'Series'")
      else Raise (KeyError name)
  end.

End Dict.

(** ** The transformer object *)

(** The attributes [configure] sets. *)
Record ExcelDataTransformer : Type := mkTransformer {
  header_keyword : string;
  start_table : Z;
  end_table : option Z;
  data_structure : pyval
}.

(** The keyword arguments of [configure]; [None] is an absent key. *)
Record Config : Type := mkConfig {
  cfg_header_keyword : option string;
  cfg_start_table : option Z;
  cfg_end_table : option Z;
  cfg_data_structure : option pyval
}.

Definition default_data_structure : pyval :=
  VDict [(KStr "DATA_GROUP_COLLECTION", VDict [])].

(** [configure], lines 25-35, on its keyword arguments. *)
Definition configure (config : Config) : ExcelDataTransformer :=
  {| header_keyword := default "HEADER_KEYWORD_TEXT" (cfg_header_keyword config);
     start_table := default 0 (cfg_start_table config);
     end_table := cfg_end_table config;
     data_structure := default default_data_structure (cfg_data_structure config) |}.

(** The configuration [main] builds (lines 172-178): no [data_structure]. *)
Definition main_config : Config :=
  {| cfg_header_keyword := Some "HEADER_KEYWORD_TEXT";
     cfg_start_table := Some 0;
     cfg_end_table := None;
     cfg_data_structure := None |}.

(** ** TableExtractor *)

(** [pd.read_excel]: the sheet below its header row, under a RangeIndex. *)
Definition read_excel (cols : list label) (rs : list (list cell)) : DataFrame :=
  {| columns := cols; index := Pandas.RangeIndex (length rs); rows := rs |}.

(** The element of the list comprehension of lines 63-69 for marker [i]. *)
Definition table_of_marker (df : DataFrame) (key : label)
    (process_rows : list nat) (i : nat) : result DataFrame :=
  let start := Z.of_nat (nth i process_rows 0%nat) + 1 in
  let stop :=
    if (i + 1 <? length process_rows)%nat
    then Z.of_nat (nth (i + 1) process_rows 0%nat)
    else Z.of_nat (length (rows df)) in
  Pandas.assign_first_column
    (Pandas.reset_index (Pandas.iloc_slice df (Some start) (Some stop)))
    key
    (Pandas.iloc_row df (nth i process_rows 0%nat)).

(** Line 59. *)
Definition find_process_rows (keyword : string) (df : DataFrame) : list nat :=
  Pandas.positions_from 0 keyword (rows df).

(** Lines 63-69. *)
Definition extract_tables (df : DataFrame) (key : label)
    (process_rows : list nat) : result (list DataFrame) :=
  map_result (table_of_marker df key process_rows)
             (seq 0 (length process_rows)).

(** [_load_excel], lines 59-72, on the frame [pd.read_excel] returned. *)
Definition _load_excel (self : ExcelDataTransformer) (df : DataFrame)
  : result DataFrame :=
  match columns df with
  | [] => Raise IndexError
  | key :: _ =>
      match find_process_rows (header_keyword self) df with
      | [] => Raise (NoHeadersFound (header_keyword self))
      | process_rows =>
          let* tables := extract_tables df key process_rows in
          Ok (Pandas.iloc_slice (Pandas.concat (columns df) tables)
                (Some (start_table self)) (end_table self))
      end
  end.

(** ** QueryFilter

    [DataFrame.query] parses the clause with Python's expression grammar
    and evaluates it column-wise.  The grammar is not modelled: the parser
    is a parameter of [filter_data], and the evaluation is modelled on the
    syntax trees of comparisons joined by [and], [or] and [not]. *)

Inductive cmpop : Type := OpEq | OpNe | OpLt | OpLe | OpGt | OpGe.

Inductive term : Type :=
  | TName (name : string)
  | TStr (s : string)
  | TInt (z : Z).

Inductive expr : Type :=
  | ECmp (op : cmpop) (a b : term)
  | EAnd (a b : expr)
  | EOr (a b : expr)
  | ENot (a : expr).

Module Query.

(** An operand of the engine: a scalar or one value per row. *)
Inductive operand (A : Type) : Type :=
  | Scalar (x : A)
  | Vector (xs : list A).
Arguments Scalar {A} x.
Arguments Vector {A} xs.

Definition cell_of_label (l : label) : cell :=
  match l with
  | LStr s => CStr s
  | LInt z => CInt z
  end.

(** The position of the column labelled with the string [name]. *)
Fixpoint column_position (cols : list label) (name : string) : option nat :=
  match cols with
  | [] => None
  | c :: cols' =>
      if label_eqb c (LStr name) then Some 0%nat
      else option_map S (column_position cols' name)
  end.

Definition column_values (df : DataFrame) (pos : nat) : list cell :=
  map (fun r => nth pos r CNaN) (rows df).

(** A value of the engine: a cell of the table, the float infinity, or
    one of the Python types the engine knows by name. *)
Inductive value : Type :=
  | QCell (c : cell)
  | QInf
  | QType (name : string).

(** The names the engine resolves besides the columns: the index, the
    column axis, and the default names of its scope. *)
Definition index_names : list string := ["index"; "ilevel_0"].
Definition axis_names : list string := ["columns"; "clevel_0"].
Definition infinity_names : list string := ["inf"; "Inf"].
Definition type_names : list string :=
  ["Timestamp"; "datetime"; "list"; "tuple"].

Definition name_in (name : string) (names : list string) : bool :=
  existsb (String.eqb name) names.

(** Name resolution: the columns first, then the index, then the default
    names; any other name is undefined.  The two names that stand for
    the column axis resolve to an object outside this model. *)
Definition resolve (df : DataFrame) (name : string)
  : result (operand value) :=
  match column_position (columns df) name with
  | Some pos => Ok (Vector (map QCell (column_values df pos)))
  | None =>
      if name_in name index_names
      then Ok (Vector (map (fun l => QCell (cell_of_label l)) (index df)))
      else if name_in name axis_names
      then Raise (TypeError "column axis in a query")
      else if name_in name infinity_names then Ok (Scalar QInf)
      else if name_in name type_names then Ok (Scalar (QType name))
      else Raise (UndefinedVariableError name)
  end.

Definition eval_term (df : DataFrame) (t : term) : result (operand value) :=
  match t with
  | TName name => resolve df name
  | TStr s => Ok (Scalar (QCell (CStr s)))
  | TInt z => Ok (Scalar (QCell (CInt z)))
  end.

Definition cell_eqb (x y : cell) : bool :=
  match x, y with
  | CStr a, CStr b => String.eqb a b
  | CInt a, CInt b => Z.eqb a b
  | _, _ => false
  end.

(** The order on two cells; strings and numbers do not compare, and
    NaN is below and above nothing. *)
Definition cell_ltb (x y : cell) : result bool :=
  match x, y with
  | CInt a, CInt b => Ok (a <? b)
  | CStr a, CStr b => Ok (String.ltb a b)
  | CNaN, CStr _ | CStr _, CNaN | CInt _, CStr _ | CStr _, CInt _ =>
      Raise (TypeError "'<' not supported between these instances")
  | _, _ => Ok false
  end.

Definition cell_unordered (x y : cell) : bool :=
  match x, y with
  | CNaN, _ | _, CNaN => true
  | _, _ => false
  end.

(** The same on the values of the engine: every integer is below the
    infinity, a string does not compare with it, and a type is equal to
    itself only and ordered with nothing. *)
Definition value_eqb (x y : value) : bool :=
  match x, y with
  | QCell a, QCell b => cell_eqb a b
  | QInf, QInf => true
  | QType a, QType b => String.eqb a b
  | _, _ => false
  end.

Definition value_ltb (x y : value) : result bool :=
  match x, y with
  | QCell a, QCell b => cell_ltb a b
  | QCell (CInt _), QInf => Ok true
  | QCell CNaN, QInf | QInf, QCell CNaN | QInf, QCell (CInt _) | QInf, QInf =>
      Ok false
  | _, _ => Raise (TypeError "'<' not supported between these instances")
  end.

Definition value_unordered (x y : value) : bool :=
  match x, y with
  | QCell CNaN, _ | _, QCell CNaN => true
  | _, _ => false
  end.

Definition compare (op : cmpop) (x y : value) : result bool :=
  match op with
  | OpEq => Ok (value_eqb x y)
  | OpNe => Ok (negb (value_eqb x y))
  | OpLt => value_ltb x y
  | OpGt => value_ltb y x
  | OpLe => let* b := value_ltb y x in Ok (negb b && negb (value_unordered x y))
  | OpGe => let* b := value_ltb x y in Ok (negb b && negb (value_unordered x y))
  end.

(** Broadcasting of a binary operation. *)
Definition broadcast {A B} (f : A -> A -> result B) (x y : operand A)
  : result (operand B) :=
  match x, y with
  | Scalar a, Scalar b => let* c := f a b in Ok (Scalar c)
  | Scalar a, Vector bs => let* cs := map_result (f a) bs in Ok (Vector cs)
  | Vector xs, Scalar b =>
      let* cs := map_result (fun a => f a b) xs in Ok (Vector cs)
  | Vector xs, Vector ys =>
      let* cs := map_result (fun p => f (fst p) (snd p)) (combine xs ys) in
      Ok (Vector cs)
  end.

(** The value of an expression.  The engine visits the clause from left
    to right: it resolves the names of a comparison when it reaches it
    and, a column that holds a string having the dtype [object],
    evaluates a comparison with such a column on the spot; both sides of
    a connective are evaluated.  A comparison of a text literal with a
    numeric column is evaluated after the visit only; it is evaluated on
    the spot here as well, which can change which of two exceptions is
    reported, not whether the query raises. *)
Fixpoint eval (df : DataFrame) (e : expr) : result (operand bool) :=
  match e with
  | ECmp op a b =>
      let* x := eval_term df a in
      let* y := eval_term df b in
      broadcast (compare op) x y
  | EAnd a b =>
      let* x := eval df a in
      let* y := eval df b in
      broadcast (fun p q => Ok (p && q)) x y
  | EOr a b =>
      let* x := eval df a in
      let* y := eval df b in
      broadcast (fun p q => Ok (p || q)) x y
  | ENot a =>
      let* x := eval df a in
      match x with
      | Scalar p => Ok (Scalar (negb p))
      | Vector ps => Ok (Vector (map negb ps))
      end
  end.

(** Keeping the entries a boolean mask selects. *)
Fixpoint select {A} (mask : list bool) (xs : list A) : list A :=
  match mask, xs with
  | b :: mask', x :: xs' => if b then x :: select mask' xs' else select mask' xs'
  | _, _ => []
  end.

(** [df.loc[res]]: a mask selects rows, a scalar is no row label. *)
Definition loc (df : DataFrame) (res : operand bool) : result DataFrame :=
  match res with
  | Scalar _ => Raise (KeyError "boolean label")
  | Vector mask =>
      Ok {| columns := columns df;
            index := select mask (index df);
            rows := select mask (rows df) |}
  end.

(** The names of an expression, left to right. *)
Definition term_names (t : term) : list string :=
  match t with
  | TName name => [name]
  | _ => []
  end.

Fixpoint names (e : expr) : list string :=
  match e with
  | ECmp _ a b => term_names a ++ term_names b
  | EAnd a b | EOr a b => names a ++ names b
  | ENot a => names a
  end.

(** The names of the engine's own: they resolve on every frame. *)
Definition engine_names : list string :=
  index_names ++ axis_names ++ infinity_names ++ type_names.

(** The names that resolve on [df]. *)
Definition defined (df : DataFrame) (name : string) : bool :=
  match column_position (columns df) name with
  | Some _ => true
  | None => name_in name engine_names
  end.

(** [df.query(expr)] on the parsed clause. *)
Definition query (df : DataFrame) (e : expr) : result DataFrame :=
  let* res := eval df e in
  loc df res.

(** [df[names]] for a list of names: the columns in the order asked
    for; a name that labels no column is a KeyError. *)
Definition getitem_list (df : DataFrame) (names : list string)
  : result DataFrame :=
  let* ps := map_result
               (fun name => match column_position (columns df) name with
                            | Some pos => Ok pos
                            | None => Raise (KeyError name)
                            end) names in
  Ok {| columns := map LStr names;
        index := index df;
        rows := map (fun r => map (fun pos => nth pos r CNaN) ps) (rows df) |}.

End Query.

(** [filter_data], lines 74-78, on the frame [_load_excel] stored in
    [self.df].  A clause or a column list that is [None] or the empty
    string is falsy and switches its step off. *)
Definition truthy (s : option string) : option string :=
  match s with
  | Some EmptyString | None => None
  | Some text => Some text
  end.

Definition filter_data (parse : string -> option expr) (df : DataFrame)
    (select_columns where_clause : option string) : result DataFrame :=
  let* filtered_df :=
    match truthy where_clause with
    | None => Ok df
    | Some clause =>
        match parse clause with
        | None => Raise SyntaxError
        | Some e => Query.query df e
        end
    end in
  match truthy select_columns with
  | Some cols => Query.getitem_list filtered_df (Py.split "," cols)
  | None => Ok filtered_df
  end.

(** ** FormatCodec: the JSON encoder

    [json.dump(obj, f, indent=2)] writes the chunks of the encoder to the
    file one after the other; an object the encoder does not know stops it
    with a TypeError after the chunks before it have been written.  The
    functions below return the text written and the exception, if any. *)

Module Json.

Definition quote : string := String (ascii_of_nat 34) EmptyString.
Definition backslash : string := String (ascii_of_nat 92) EmptyString.

Definition hex_digit (n : nat) : ascii :=
  if (n <? 10)%nat then ascii_of_nat (48 + n) else ascii_of_nat (87 + n).

(** The escape of one character when [ensure_ascii] is on. *)
Definition escape_char (c : ascii) : string :=
  let n := nat_of_ascii c in
  if (n =? 34)%nat then backslash +:+ quote
  else if (n =? 92)%nat then backslash +:+ backslash
  else if (n =? 8)%nat then backslash +:+ "b"
  else if (n =? 12)%nat then backslash +:+ "f"
  else if (n =? 10)%nat then backslash +:+ "n"
  else if (n =? 13)%nat then backslash +:+ "r"
  else if (n =? 9)%nat then backslash +:+ "t"
  else if ((32 <=? n) && (n <=? 126))%nat then String c EmptyString
  else backslash +:+ "u00"
       +:+ String (hex_digit (n / 16)) (String (hex_digit (n mod 16)) EmptyString).

Fixpoint escape (s : string) : string :=
  match s with
  | EmptyString => EmptyString
  | String c r => escape_char c +:+ escape r
  end.

Definition encode_str (s : string) : string := quote +:+ escape s +:+ quote.

Definition encode_key (k : pykey) : string :=
  match k with
  | KStr s => encode_str s
  | KInt z => encode_str (Py.str_of_Z z)
  | KNone => encode_str "null"
  end.

Fixpoint spaces (n : nat) : string :=
  match n with
  | O => EmptyString
  | S n' => String " " (spaces n')
  end.

Definition newline_indent (level : nat) : string :=
  String Py.LF (spaces (2 * level)).

Definition not_serializable : exn :=
  TypeError "Object of type DataFrame is not JSON serializable".

(** The chunks of the members of a list or a dict, each given with the
    text that precedes it (the key of a dict member) and with its own
    chunks: a separator goes between two members, and the first member
    that stops the encoder ends the text. *)
Fixpoint join (level : nat) (closing : string) (first : bool)
    (parts : list (string * (string * option exn))) : string * option exn :=
  match parts with
  | [] => (newline_indent level +:+ closing, None)
  | (key, (t, e)) :: rest =>
      let buf := (if first then EmptyString
                  else "," +:+ newline_indent (S level)) +:+ key in
      match e with
      | None =>
          let (t', e') := join level closing false rest in
          (buf +:+ t +:+ t', e')
      | Some err => (buf +:+ t, Some err)
      end
  end.

(** The chunks of [obj] at nesting depth [level], joined. *)
Fixpoint iterencode (level : nat) (obj : pyval) {struct obj}
  : string * option exn :=
  match obj with
  | VNone => ("null", None)
  | VInt z => (Py.str_of_Z z, None)
  | VStr s => (encode_str s, None)
  | VFrame _ => (EmptyString, Some not_serializable)
  | VList [] => ("[]", None)
  | VList items =>
      let (body, e) :=
        join level "]" true
          (map (fun x => (EmptyString, iterencode (S level) x)) items) in
      ("[" +:+ newline_indent (S level) +:+ body, e)
  | VDict [] => ("{}", None)
  | VDict entries =>
      let (body, e) :=
        join level "}" true
          (map (fun kv => let '(k, x) := kv in
                          (encode_key k +:+ ": ", iterencode (S level) x))
               entries) in
      ("{" +:+ newline_indent (S level) +:+ body, e)
  end.

(** [json.dump(obj, f, indent=2)]: what reaches the file, and the
    exception that ended the call. *)
Definition dump (obj : pyval) : string * option exn := iterencode 0 obj.

End Json.

(** The decoders and the YAML emitter are taken from the libraries as
    they are: [json.loads], [yaml.safe_load] ([None]: the text does not
    parse) and [yaml.dump(obj, f, default_flow_style=False)] (the text
    written and the exception, if any).  Documents are trees: a YAML text
    whose anchors make two places share one mapping is not covered. *)
Record Codec : Type := mkCodec {
  json_loads : string -> option pyval;
  yaml_safe_load : string -> option pyval;
  yaml_dump : pyval -> string * option exn
}.

(** ** MergeStore *)

(** What [update_output_file] prints. *)
Inductive message : Type :=
  | ErrorDetectingFileFormat (e : exn).

(** How a call ends: it returns (having printed) or it raises. *)
Inductive outcome : Type :=
  | Returned (printed : list message)
  | Raised (e : exn).

(** Line 134. *)
Definition load_content (cd : Codec) (output_format : file_format)
    (text : string) : result pyval :=
  match (match output_format with
         | json => json_loads cd text
         | _ => yaml_safe_load cd text
         end) with
  | Some content => Ok content
  | None => Raise DecodeError
  end.

(** Lines 136-137:
    [content.setdefault(root, {}).setdefault(data_group, {})[category] = data]
    with [root = parser.data_structure['DATA_GROUP_COLLECTION']]. *)
Definition merge_into (content : pyval) (parser : ExcelDataTransformer)
    (data_group category : string) (data : pyval) : result pyval :=
  match content with
  | VDict doc =>
      let* root_value := Dict.getitem (data_structure parser) "DATA_GROUP_COLLECTION" in
      let* root := Dict.hashable root_value in
      match default (VDict []) (Dict.get doc root) with
      | VDict groups =>
          match default (VDict []) (Dict.get groups (KStr data_group)) with
          | VDict categories =>
              Ok (VDict (Dict.set doc root
                    (VDict (Dict.set groups (KStr data_group)
                       (VDict (Dict.set categories (KStr category) data))))))
          | VList _ => Raise (TypeError "list indices must be integers or slices")
          | _ => Raise (TypeError "object does not support item assignment")
          end
      | _ => Raise (AttributeError "setdefault")
      end
  | _ => Raise (AttributeError "setdefault")
  end.

(** Line 141: [{parser.data_structure: {data_group: {category: data}}}]. *)
Definition fresh_content (parser : ExcelDataTransformer)
    (data_group category : string) (data : pyval) : result pyval :=
  let* root := Dict.hashable (data_structure parser) in
  Ok (VDict [(root, VDict [(KStr data_group, VDict [(KStr category, data)])])]).

(** The state before the write step: the function has printed and
    returned, it has raised, or it holds the document to write. *)
Inductive prepared : Type :=
  | GaveUp (printed : list message)
  | Failed (e : exn)
  | Ready (content : pyval) (output_format : file_format).

(** Lines 122-142. *)
Definition prepare (cd : Codec) (fs : filesystem) (output_file : string)
    (data : pyval) (parser : ExcelDataTransformer)
    (data_group category : string) : prepared :=
  match fs !! output_file with
  | Some text =>
      match detect_file_format fs output_file with
      | Raise e => GaveUp [ErrorDetectingFileFormat e]
      | Ok csv => Failed CannotUpdateCSV
      | Ok output_format =>
          match (let* content := load_content cd output_format text in
                 merge_into content parser data_group category data) with
          | Ok content => Ready content output_format
          | Raise e => Failed (ErrorReadingOrParsing output_file e)
          end
      end
  | None =>
      match fresh_content parser data_group category data with
      | Ok content => Ready content json
      | Raise e => Failed e
      end
  end.

(** Lines 144-148: the file is opened for writing, which empties it, and
    the document is dumped into it. *)
Definition write_step (cd : Codec) (fs : filesystem) (output_file : string)
    (content : pyval) (output_format : file_format) : outcome * filesystem :=
  let (text, e) :=
    match output_format with
    | json => Json.dump content
    | yaml => yaml_dump cd content
    | csv => (EmptyString, None)
    end in
  (match e with None => Returned [] | Some e => Raised e end,
   <[output_file := text]> fs).

(** [update_output_file], lines 119-148: how the call ends and the files
    after it. *)
Definition update_output_file (cd : Codec) (fs : filesystem)
    (output_file : string) (data : pyval) (parser : ExcelDataTransformer)
    (data_group category : string) : outcome * filesystem :=
  match prepare cd fs output_file data parser data_group category with
  | GaveUp printed => (Returned printed, fs)
  | Failed e => (Raised e, fs)
  | Ready content output_format =>
      write_step cd fs output_file content output_format
  end.

(** ** Vocabulary of the properties *)

(** The first line of a text without its line end, nothing stripped. *)
Fixpoint raw_first_line (s : string) : string :=
  match s with
  | EmptyString => EmptyString
  | String c r =>
      if (Ascii.eqb c Py.LF || Ascii.eqb c Py.CR)%bool then EmptyString
      else String c (raw_first_line r)
  end.

(** Format detection as the specification words it, on a first line:
    empty, then the prefix of JSON, of YAML, the marks of CSV, and
    anything else. *)
Definition spec_detect (file_path line : string) : result file_format :=
  match line with
  | EmptyString => Raise (EmptyOrCorrupted file_path)
  | _ =>
      if Py.startswith "{" line then Ok json
      else if Py.startswith "---" line then Ok yaml
      else if Py.contains "," line then Ok csv
      else if Py.startswith "sep=" (Py.lower line) then Ok csv
      else Raise UnknownFileFormat
  end.

(** The number of rows of a list of tables. *)
Definition total_rows (tables : list DataFrame) : nat :=
  list_sum (map (fun t => length (rows t)) tables).

(** The position after the segment of marker [i]: the next marker, or the
    end of the sheet. *)
Definition segment_stop (df : DataFrame) (process_rows : list nat) (i : nat)
  : nat :=
  if (i + 1 <? length process_rows)%nat
  then nth (i + 1) process_rows 0%nat
  else length (rows df).

(** The rows strictly after marker [i] up to the next marker or the end. *)
Definition rows_after_marker (df : DataFrame) (process_rows : list nat)
    (i : nat) : list (list cell) :=
  let m := nth i process_rows 0%nat in
  firstn (segment_stop df process_rows i - (m + 1)) (skipn (m + 1) (rows df)).

(** The tag row [j] of segment [i] gets in its first cell: the value the
    marker row holds under the column labelled with the number [j], NaN
    when no column has that label. *)
Definition tag (df : DataFrame) (process_rows : list nat) (i j : nat) : cell :=
  Pandas.series_get (Pandas.iloc_row df (nth i process_rows 0%nat))
    (LInt (Z.of_nat j)).

(** No marker row is directly followed by a marker row or by the end of
    the sheet. *)
Definition no_empty_segment (df : DataFrame) (process_rows : list nat) : bool :=
  forallb (fun i => (nth i process_rows 0%nat + 1 <? segment_stop df process_rows i)%nat)
          (seq 0 (length process_rows)).

(** Marker positions: each at least [lo], below [hi], and above the one
    before it. *)
Fixpoint ascending (lo hi : nat) (ms : list nat) : Prop :=
  match ms with
  | [] => True
  | m :: rest => (lo <= m < hi)%nat /\ ascending (S m) hi rest
  end.

(** The number of rows between each marker and the next one (or the end,
    at row [n]). *)
Fixpoint gaps (n : nat) (ms : list nat) : list nat :=
  match ms with
  | [] => []
  | m :: rest => (hd n rest - (m + 1))%nat :: gaps n rest
  end.

(** A document is a nested mapping down to the categories. *)
Definition leaf (content : pyval) (root : pykey) (data_group category : string)
  : option pyval :=
  match content with
  | VDict doc =>
      match Dict.get doc root with
      | Some (VDict groups) =>
          match Dict.get groups (KStr data_group) with
          | Some (VDict categories) => Dict.get categories (KStr category)
          | _ => None
          end
      | _ => None
      end
  | _ => None
  end.

(** A decoder that knows one text, for examples: [text] parses to [doc]
    as JSON and as YAML, any other text does not parse. *)
Definition codec_of_text (text : string) (doc : pyval) : Codec :=
  {| json_loads := fun s => if String.eqb s text then Some doc else None;
     yaml_safe_load := fun s => if String.eqb s text then Some doc else None;
     yaml_dump := fun _ => (EmptyString, None) |}.

(** The two steps of [filter_data]: the clause (line 77), then the
    column list (line 78). *)
Definition where_step (parse : string -> option expr) (df : DataFrame)
    (where_clause : option string) : result DataFrame :=
  match truthy where_clause with
  | None => Ok df
  | Some clause =>
      match parse clause with
      | None => Raise SyntaxError
      | Some e => Query.query df e
      end
  end.

Definition select_step (filtered_df : DataFrame)
    (select_columns : option string) : result DataFrame :=
  match truthy select_columns with
  | Some cols => Query.getitem_list filtered_df (Py.split "," cols)
  | None => Ok filtered_df
  end.

(** A parser for examples: it knows one clause. *)
Definition parser_of_clause (clause : string) (e : expr)
  : string -> option expr :=
  fun s => if String.eqb s clause then Some e else None.

(** A frame for examples. *)
Definition example_frame : DataFrame :=
  {| columns := [LStr "NAME"; LStr "SIZE"];
     index := [LInt 0; LInt 1; LInt 2];
     rows := [[CStr "a"; CInt 10]; [CStr "b"; CInt 25]; [CStr "c"; CInt 25]] |}.

(** A label that is a string; a row whose first cell is NaN. *)
Definition string_label (l : label) : Prop := exists s, l = LStr s.
Definition starts_with_nan (row : list cell) : Prop :=
  exists rest, row = CNaN :: rest.

(** A sheet for examples: the keyword is H, the second and the third
    marker follow each other. *)
Definition example_sheet : DataFrame :=
  read_excel [LStr "k"; LStr "v"]
    [[CStr "H"; CInt 1]; [CStr "a"; CInt 2]; [CStr "H"; CInt 3];
     [CStr "H"; CInt 4]; [CStr "b"; CInt 5]].

Definition example_transformer : ExcelDataTransformer :=
  {| header_keyword := "H"; start_table := 0; end_table := None;
     data_structure := VDict [(KStr "DATA_GROUP_COLLECTION", VStr "DATA")] |}.



(** A text made of white space only. *)
Fixpoint all_space (s : string) : bool :=
  match s with
  | EmptyString => true
  | String c r => Py.isspace c && all_space r
  end.

(** A transformer whose [data_structure] is the name of the root key, as
    line 141 reads it. *)
Definition creating_transformer : ExcelDataTransformer :=
  {| header_keyword := "H"; start_table := 0; end_table := None;
     data_structure := VStr "DATA" |}.

(** A decoder for examples that knows two texts. *)
Definition codec_of_texts (text1 : string) (doc1 : pyval)
    (text2 : string) (doc2 : pyval) : Codec :=
  {| json_loads := fun s => if String.eqb s text1 then Some doc1
                            else if String.eqb s text2 then Some doc2
                            else None;
     yaml_safe_load := fun _ => None;
     yaml_dump := fun _ => (EmptyString, None) |}.

(** The exceptions a clause can end in while the engine evaluates it:
    the undefined-name error of a name of the clause that does not
    resolve on the frame, or a TypeError. *)
Definition query_error (df : DataFrame) (e : expr) (err : exn) : Prop :=
  (exists name, In name (Query.names e)
                /\ Query.defined df name = false
                /\ err = UndefinedVariableError name)
  \/ exists what, err = TypeError what.

(** * Properties *)

(** ** Format detection *)

Section Detection.

Variable file_path : string.

Lemma startswith_nonempty p c s :
  Py.startswith (String c p) s = true -> s <> EmptyString.
Proof. destruct s; simpl; congruence. Qed.

Lemma classify_as_spec line :
  classify_first_line file_path line = spec_detect file_path line.
Proof.
  unfold classify_first_line, spec_detect.
  destruct line as [|c r]; [reflexivity|].
  change (String.eqb (String c r) EmptyString) with false. cbv iota.
  destruct (Py.startswith "{" (String c r)); [reflexivity|].
  destruct (Py.startswith "---" (String c r)); [reflexivity|].
  destruct (Py.contains "," (String c r)); reflexivity.
Qed.

Lemma classify_json line :
  Py.startswith "{" line = true ->
  classify_first_line file_path line = Ok json.
Proof.
  intros H. unfold classify_first_line.
  destruct line as [|c r]; [discriminate|].
  change (String.eqb (String c r) EmptyString) with false. cbv iota.
  now rewrite H.
Qed.

Lemma dash_not_brace line :
  Py.startswith "---" line = true -> Py.startswith "{" line = false.
Proof.
  destruct line as [|c r]; [discriminate|].
  change (Py.startswith "---" (String c r))
    with (Ascii.eqb "-" c && Py.startswith "--" r).
  change (Py.startswith "{" (String c r)) with (Ascii.eqb "{" c && true).
  destruct (Ascii.eqb_spec "-" c) as [<-|]; [reflexivity|].
  intros H. apply andb_true_iff in H as [H _]. discriminate H.
Qed.

Lemma classify_yaml line :
  Py.startswith "---" line = true ->
  classify_first_line file_path line = Ok yaml.
Proof.
  intros H. unfold classify_first_line.
  rewrite (dash_not_brace _ H), H.
  destruct line; [discriminate|reflexivity].
Qed.

End Detection.

(** C5, as stated, is false: the detector strips the first line before it
    looks at it, so a first line that only follows white space with a
    brace is JSON, where the rules read on the first line itself say
    "unknown format". *)
Lemma C5_counterexample :
  ~ (forall file_path text,
        detect_text file_path text
        = spec_detect file_path (raw_first_line text)).
Proof.
  intros H. specialize (H "out" " {}"). vm_compute in H. discriminate.
Qed.

(** C5, amended: detection looks at the first line only, stripped of
    surrounding white space, and applies the rules in their order: empty
    fails with "empty or corrupted"; a leading brace is JSON; three
    leading dashes are YAML; a comma or a leading [sep=] in any case is
    CSV; anything else fails with "unknown format".  One of these five
    results is always produced. *)
Theorem C5_detect_on_stripped_first_line
    (fs : filesystem) (file_path text : string) :
  fs !! file_path = Some text ->
  detect_file_format fs file_path
  = spec_detect file_path (Py.strip (Py.readline text))
  /\ (forall text', Py.readline text' = Py.readline text ->
        detect_text file_path text' = detect_file_format fs file_path)
  /\ (detect_file_format fs file_path = Raise (EmptyOrCorrupted file_path)
      \/ detect_file_format fs file_path = Raise UnknownFileFormat
      \/ exists fmt, detect_file_format fs file_path = Ok fmt).
Proof.
  intros Hf. unfold detect_file_format. rewrite Hf. unfold detect_text.
  split; [apply classify_as_spec|]. split.
  - intros text' ->. reflexivity.
  - unfold classify_first_line.
    repeat match goal with
           | |- context [if ?b then _ else _] => destruct b
           end; eauto.
Qed.

Lemma C5_detect_on_stripped_first_line_witness :
  detect_file_format {["out" := "  ---  "]} "out" = Ok yaml.
Proof.
  destruct (C5_detect_on_stripped_first_line
              {["out" := "  ---  "]} "out" "  ---  ") as [H _].
  - apply lookup_singleton_eq.
  - rewrite H. reflexivity.
Defined.

(** C10: the tests run in the order JSON, YAML, CSV on the stripped first
    line, so a leading brace gives JSON and three leading dashes give YAML
    whether or not the line holds a comma. *)
Theorem C10_json_and_yaml_before_csv
    (fs : filesystem) (file_path text : string) :
  fs !! file_path = Some text ->
  (Py.startswith "{" (Py.strip (Py.readline text)) = true ->
   detect_file_format fs file_path = Ok json)
  /\ (Py.startswith "---" (Py.strip (Py.readline text)) = true ->
      detect_file_format fs file_path = Ok yaml).
Proof.
  intros Hf. unfold detect_file_format, detect_text. rewrite Hf.
  split; intros H; [now apply classify_json | now apply classify_yaml].
Qed.

Lemma C10_json_and_yaml_before_csv_witness :
  (Py.contains "," (Py.strip (Py.readline " {a,b}")) = true
   /\ detect_file_format {["out" := " {a,b}"]} "out" = Ok json)
  /\ (Py.contains "," (Py.strip (Py.readline "---,x")) = true
      /\ detect_file_format {["out" := "---,x"]} "out" = Ok yaml).
Proof.
  split; (split; [reflexivity|]).
  - apply (C10_json_and_yaml_before_csv {["out" := " {a,b}"]} "out" " {a,b}");
      [apply lookup_singleton_eq | reflexivity].
  - apply (C10_json_and_yaml_before_csv {["out" := "---,x"]} "out" "---,x");
      [apply lookup_singleton_eq | reflexivity].
Defined.

(** ** The merge store *)

Section MergeStore.

Variable cd : Codec.
Variables (fs : filesystem) (output_file : string).
Variables (data : pyval) (parser : ExcelDataTransformer).
Variables (data_group category : string).

(** An existing file whose format is not detected: the function prints
    and returns, and writes nothing. *)
Lemma update_undetected text e :
  fs !! output_file = Some text ->
  detect_text output_file text = Raise e ->
  update_output_file cd fs output_file data parser data_group category
  = (Returned [ErrorDetectingFileFormat e], fs).
Proof.
  intros Hf He. unfold update_output_file, prepare, detect_file_format.
  now rewrite Hf, He.
Qed.

(** What [prepare] gives up on is a failed detection. *)
Lemma prepare_gave_up printed :
  prepare cd fs output_file data parser data_group category = GaveUp printed ->
  exists e, detect_file_format fs output_file = Raise e
            /\ printed = [ErrorDetectingFileFormat e].
Proof.
  unfold prepare.
  destruct (fs !! output_file) as [text|] eqn:Hf.
  - destruct (detect_file_format fs output_file) as [[]|e] eqn:Hd.
    + destruct (let* content := _ in _); discriminate.
    + destruct (let* content := _ in _); discriminate.
    + discriminate.
    + intros [= <-]. eauto.
  - destruct (fresh_content _ _ _ _); discriminate.
Qed.

(** An existing file in JSON or YAML: the document is loaded, merged
    and written back in the format detected. *)
Lemma update_existing text output_format content merged :
  fs !! output_file = Some text ->
  detect_text output_file text = Ok output_format ->
  output_format <> csv ->
  load_content cd output_format text = Ok content ->
  merge_into content parser data_group category data = Ok merged ->
  update_output_file cd fs output_file data parser data_group category
  = write_step cd fs output_file merged output_format.
Proof.
  intros Hf Hd Hc Hl Hm.
  unfold update_output_file, prepare, detect_file_format.
  rewrite Hf, Hd. destruct output_format; try congruence;
    rewrite Hl; simpl; now rewrite Hm.
Qed.

End MergeStore.

(** C4: when the existing target is detected as CSV the merge raises
    "Cannot update CSV files incrementally" and the files are what they
    were: nothing is written. *)
Theorem C4_csv_target_rejected
    (cd : Codec) (fs : filesystem) (output_file text : string)
    (data : pyval) (parser : ExcelDataTransformer)
    (data_group category : string) :
  fs !! output_file = Some text ->
  detect_file_format fs output_file = Ok csv ->
  update_output_file cd fs output_file data parser data_group category
  = (Raised CannotUpdateCSV, fs).
Proof.
  intros Hf Hd. unfold update_output_file, prepare. now rewrite Hf, Hd.
Qed.

Lemma C4_csv_target_rejected_witness :
  update_output_file (codec_of_text "a,b" VNone)
    {["out.csv" := "a,b,c"]} "out.csv" (VList [])
    (configure main_config) "G" "C"
  = (Raised CannotUpdateCSV, {["out.csv" := "a,b,c"]}).
Proof.
  apply (C4_csv_target_rejected _ _ _ "a,b,c").
  - apply lookup_singleton_eq.
  - unfold detect_file_format. rewrite lookup_singleton_eq. reflexivity.
Defined.

(** C6, as stated, is false: a failure to detect the format of the
    existing file does not reach the caller.  The function catches it,
    prints a message and returns as after a success. *)
Lemma C6_counterexample :
  ~ (forall cd fs output_file data parser data_group category,
        (forall content output_format,
            prepare cd fs output_file data parser data_group category
            <> Ready content output_format) ->
        exists e,
          fst (update_output_file cd fs output_file data parser
                 data_group category) = Raised e).
Proof.
  intros H.
  destruct (H (codec_of_text "{" VNone) {["out" := "???"]} "out" (VList [])
              (configure main_config) "G" "C") as [e He].
  - intros content output_format. unfold prepare, detect_file_format.
    rewrite lookup_singleton_eq. discriminate.
  - rewrite (update_undetected _ _ _ _ _ _ _ "???" UnknownFileFormat) in He.
    + discriminate He.
    + apply lookup_singleton_eq.
    + reflexivity.
Qed.

(** C6, amended: a failure before the write step leaves the files as
    they were.  It reaches the caller as an exception, with one exception:
    when the format of the existing file is not detected, the function
    prints the error and returns. *)
Theorem C6_failure_before_write
    (cd : Codec) (fs : filesystem) (output_file : string)
    (data : pyval) (parser : ExcelDataTransformer)
    (data_group category : string) :
  (forall content output_format,
      prepare cd fs output_file data parser data_group category
      <> Ready content output_format) ->
  snd (update_output_file cd fs output_file data parser data_group category)
  = fs
  /\ ((exists e,
          fst (update_output_file cd fs output_file data parser
                 data_group category) = Raised e)
      \/ (exists e,
             detect_file_format fs output_file = Raise e
             /\ fst (update_output_file cd fs output_file data parser
                       data_group category)
                = Returned [ErrorDetectingFileFormat e])).
Proof.
  intros Hnot. unfold update_output_file.
  destruct (prepare cd fs output_file data parser data_group category)
    as [printed|e|content output_format] eqn:Hp.
  - split; [reflexivity|]. right.
    destruct (prepare_gave_up _ _ _ _ _ _ _ _ Hp) as (e & Hd & ->). eauto.
  - split; [reflexivity|]. left. eauto.
  - now destruct (Hnot content output_format).
Qed.

Lemma C6_failure_before_write_witness :
  snd (update_output_file (codec_of_text "{" VNone) {["out" := "{"]} "out"
         (VList []) (configure main_config) "G" "C")
  = {["out" := "{"]}.
Proof.
  apply (C6_failure_before_write (codec_of_text "{" VNone) {["out" := "{"]}
           "out" (VList []) (configure main_config) "G" "C").
  intros content output_format. unfold prepare, detect_file_format.
  rewrite lookup_singleton_eq. discriminate.
Defined.

(** ** Dictionaries *)

Lemma pykey_eqb_eq a b : pykey_eqb a b = true <-> a = b.
Proof.
  destruct a, b; simpl; split; try congruence; try discriminate.
  - intros H. apply Z.eqb_eq in H. now subst.
  - intros [= ->]. apply Z.eqb_refl.
  - intros H. apply String.eqb_eq in H. now subst.
  - intros [= ->]. apply String.eqb_refl.
Qed.

Lemma pykey_eqb_refl a : pykey_eqb a a = true.
Proof. now apply pykey_eqb_eq. Qed.

Lemma pykey_eqb_neq a b : a <> b -> pykey_eqb a b = false.
Proof.
  intros H. destruct (pykey_eqb a b) eqn:E; [|reflexivity].
  now apply pykey_eqb_eq in E.
Qed.

Lemma get_set_same d k v : Dict.get (Dict.set d k v) k = Some v.
Proof.
  induction d as [|[k' v'] d IH]; simpl.
  - now rewrite pykey_eqb_refl.
  - destruct (pykey_eqb k' k) eqn:E; simpl; now rewrite E.
Qed.

Lemma get_set_other d k k' v :
  k <> k' -> Dict.get (Dict.set d k v) k' = Dict.get d k'.
Proof.
  intros Hne. induction d as [|[k0 v0] d IH]; simpl.
  - now rewrite pykey_eqb_neq.
  - destruct (pykey_eqb k0 k) eqn:E; simpl.
    + apply pykey_eqb_eq in E. subst k0. now rewrite pykey_eqb_neq.
    + now rewrite IH.
Qed.

Ltac dict_simpl :=
  repeat first [ rewrite get_set_same | rewrite pykey_eqb_refl
               | rewrite String.eqb_refl | progress simpl ].

(** A string test that cannot hold is decided. *)
Ltac decide_eqb :=
  repeat match goal with
         | |- context [String.eqb ?a ?b] =>
             destruct (String.eqb_spec a b); [congruence|]
         | |- context [pykey_eqb ?a ?b] =>
             rewrite (pykey_eqb_neq a b) by congruence
         end.

(** The merge of lines 136-137 on a document, once the root key is
    resolved: the leaf of the call holds the data, every other leaf and
    every other top-level key is what it was. *)
Lemma merge_into_frame doc parser data_group category data root_value root merged :
  Dict.getitem (data_structure parser) "DATA_GROUP_COLLECTION" = Ok root_value ->
  Dict.hashable root_value = Ok root ->
  merge_into (VDict doc) parser data_group category data = Ok merged ->
  leaf merged root data_group category = Some data
  /\ (forall g c, (g, c) <> (data_group, category) ->
        leaf merged root g c = leaf (VDict doc) root g c)
  /\ (forall k, k <> root ->
        exists doc', merged = VDict doc' /\ Dict.get doc' k = Dict.get doc k).
Proof.
  intros Hroot Hhash. unfold merge_into. rewrite Hroot. simpl. rewrite Hhash.
  simpl. unfold leaf.
  destruct (Dict.get doc root) as [groups_value|] eqn:Hg; simpl.
  - destruct groups_value as [| | | |groups|]; try discriminate.
    destruct (Dict.get groups (KStr data_group)) as [cats_value|] eqn:Hc; simpl.
    + destruct cats_value as [| | | |cats|]; try discriminate.
      intros [= <-]. dict_simpl. split; [reflexivity|split].
      * intros g c Hne.
        destruct (String.eqb_spec data_group g) as [<-|Hgne].
        -- dict_simpl. rewrite Hc.
           apply get_set_other. congruence.
        -- rewrite get_set_other by congruence. reflexivity.
      * intros k Hk. eexists. split; [reflexivity|].
        apply get_set_other. congruence.
    + intros [= <-]. dict_simpl. split; [reflexivity|split].
      * intros g c Hne.
        destruct (String.eqb_spec data_group g) as [<-|Hgne].
        -- dict_simpl. rewrite Hc. decide_eqb. reflexivity.
        -- rewrite get_set_other by congruence. reflexivity.
      * intros k Hk. eexists. split; [reflexivity|].
        apply get_set_other. congruence.
  - intros [= <-]. dict_simpl. split; [reflexivity|split].
    + intros g c Hne.
      destruct (String.eqb_spec data_group g) as [<-|Hgne].
      * dict_simpl. decide_eqb. reflexivity.
      * decide_eqb. reflexivity.
    + intros k Hk. eexists. split; [reflexivity|].
      apply get_set_other. congruence.
Qed.

(** ** The root key of the document

    The branch that creates the file uses [parser.data_structure] itself
    as the root key (line 141); the branch that updates it uses the entry
    ['DATA_GROUP_COLLECTION'] of [parser.data_structure] (line 136).  No
    value of [data_structure] serves both. *)
Lemma root_key_of_one_branch_only parser root_value :
  is_ok (Dict.hashable (data_structure parser)) = true ->
  Dict.getitem (data_structure parser) "DATA_GROUP_COLLECTION" = Ok root_value ->
  False.
Proof. destruct (data_structure parser); simpl; discriminate. Qed.

(** With a root key that is a string and data the encoder knows, the
    branch that creates the file writes the one-leaf document. *)
Lemma fresh_document_written cd (fs : filesystem) output_file data parser
    data_group category root text :
  fs !! output_file = None ->
  data_structure parser = VStr root ->
  Json.dump (VDict [(KStr root,
                     VDict [(KStr data_group,
                             VDict [(KStr category, data)])])])
  = (text, None) ->
  update_output_file cd fs output_file data parser data_group category
  = (Returned [], <[output_file := text]> fs).
Proof.
  intros Hf Hs Hd. unfold update_output_file, prepare, fresh_content.
  rewrite Hf, Hs. simpl. unfold write_step. now rewrite Hd.
Qed.

(** A DataFrame handed over as the data stops the encoder: the call
    raises after the file has been opened for writing. *)
Lemma fresh_document_with_frame cd (fs : filesystem) output_file df parser
    data_group category root :
  fs !! output_file = None ->
  data_structure parser = VStr root ->
  exists text,
    update_output_file cd fs output_file (VFrame df) parser data_group category
    = (Raised Json.not_serializable, <[output_file := text]> fs).
Proof.
  intros Hf Hs. unfold update_output_file, prepare, fresh_content.
  rewrite Hf, Hs. simpl. unfold write_step. simpl. eauto.
Qed.

(** C2 on the code: the transformer keeps [data_structure] as a dict (its
    declared type, and the default [configure] gives it); with no file at
    the path, building the fresh document uses that dict as a key, which
    raises TypeError, and no file is written. *)
Theorem C2_fresh_document_root_is_a_dict
    (cd : Codec) (fs : filesystem) (output_file : string) (data : pyval)
    (parser : ExcelDataTransformer) (data_group category : string)
    (entries : list (pykey * pyval)) :
  fs !! output_file = None ->
  data_structure parser = VDict entries ->
  update_output_file cd fs output_file data parser data_group category
  = (Raised (TypeError "unhashable type: 'dict'"), fs).
Proof.
  intros Hf Hs. unfold update_output_file, prepare, fresh_content.
  now rewrite Hf, Hs.
Qed.

Lemma C2_fresh_document_root_is_a_dict_witness :
  update_output_file (codec_of_text "{" VNone) ∅ "out.json"
    (VList [VDict [(KStr "a", VInt 1)]]) (configure main_config) "G" "C"
  = (Raised (TypeError "unhashable type: 'dict'"), ∅).
Proof.
  apply (C2_fresh_document_root_is_a_dict _ _ _ _ _ _ _
           [(KStr "DATA_GROUP_COLLECTION", VDict [])]).
  - apply lookup_empty.
  - reflexivity.
Defined.

(** C3 on the code: with the transformer as [main] configures it, the
    root key looked up for an existing JSON or YAML document is the empty
    dict of the default [data_structure]; it cannot be a key, so the merge
    raises "Error reading or parsing", the leaf is not set and the file is
    not rewritten. *)
Theorem C3_merge_root_is_unhashable
    (cd : Codec) (fs : filesystem) (output_file text : string)
    (output_format : file_format) (doc : list (pykey * pyval))
    (data : pyval) (data_group category : string) :
  fs !! output_file = Some text ->
  detect_file_format fs output_file = Ok output_format ->
  output_format <> csv ->
  load_content cd output_format text = Ok (VDict doc) ->
  update_output_file cd fs output_file data (configure main_config)
    data_group category
  = (Raised (ErrorReadingOrParsing output_file
               (TypeError "unhashable type: 'dict'")), fs).
Proof.
  intros Hf Hd Hc Hl. unfold update_output_file, prepare.
  rewrite Hf, Hd. destruct output_format; try congruence; now rewrite Hl.
Qed.

Lemma C3_merge_root_is_unhashable_witness :
  update_output_file
    (codec_of_text "{ }" (VDict [])) {["out.json" := "{ }"]} "out.json"
    (VList []) (configure main_config) "G" "C"
  = (Raised (ErrorReadingOrParsing "out.json"
               (TypeError "unhashable type: 'dict'")),
     {["out.json" := "{ }"]}).
Proof.
  apply (C3_merge_root_is_unhashable _ _ _ "{ }" json []).
  - apply lookup_singleton_eq.
  - unfold detect_file_format. rewrite lookup_singleton_eq. reflexivity.
  - discriminate.
  - reflexivity.
Defined.


(** ** The JSON encoder stops on a DataFrame *)

Lemma join_stops level closing first parts key t err :
  In (key, (t, Some err)) parts ->
  snd (Json.join level closing first parts) <> None.
Proof.
  revert first. induction parts as [|[key' [t' e']] parts IH]; intros first Hin.
  - destruct Hin.
  - simpl. destruct e' as [err'|]; [discriminate|].
    destruct Hin as [Heq|Hin]; [discriminate Heq|].
    specialize (IH false Hin).
    destruct (Json.join level closing false parts). exact IH.
Qed.

Lemma get_in d k x : Dict.get d k = Some x -> exists k', In (k', x) d.
Proof.
  induction d as [|[k0 v0] d IH]; simpl; [discriminate|].
  destruct (pykey_eqb k0 k).
  - intros [= ->]. eauto.
  - intros H. destruct (IH H) as [k' Hin]. eauto.
Qed.

(** A dict that holds a value the encoder stops on stops the encoder. *)
Lemma dict_stops level d k x :
  Dict.get d k = Some x ->
  snd (Json.iterencode (S level) x) <> None ->
  snd (Json.iterencode level (VDict d)) <> None.
Proof.
  intros Hget Hx. destruct (get_in _ _ _ Hget) as [k' Hin].
  destruct d as [|entry d]; [destruct Hin|].
  change (Json.iterencode level (VDict (entry :: d)))
    with (let (body, e) :=
            Json.join level "}" true
              (map (fun kv => let '(k, x) := kv in
                              (Json.encode_key k +:+ ": ",
                               Json.iterencode (S level) x))
                   (entry :: d)) in
          ("{" +:+ Json.newline_indent (S level) +:+ body, e)).
  destruct (Json.iterencode (S level) x) as [t [err|]] eqn:Hxe;
    [|now destruct Hx].
  assert (Hparts :
            In (Json.encode_key k' +:+ ": ", (t, Some err))
               (map (fun kv => let '(k, x) := kv in
                               (Json.encode_key k +:+ ": ",
                                Json.iterencode (S level) x))
                    (entry :: d))).
  { apply in_map_iff. exists (k', x). now rewrite Hxe. }
  pose proof (join_stops level "}" true _ _ _ _ Hparts) as Hj.
  destruct (Json.join level "}" true _). exact Hj.
Qed.

(** With the root key configured as a name, the merge into an existing
    JSON document hands a DataFrame to the encoder, which stops: the call
    raises after the file has been opened for writing, and the old text
    is gone. *)
Lemma merge_with_frame cd (fs : filesystem) output_file text parser
    data_group category df root_value doc merged :
  fs !! output_file = Some text ->
  detect_text output_file text = Ok json ->
  json_loads cd text = Some (VDict doc) ->
  merge_into (VDict doc) parser data_group category (VFrame df) = Ok merged ->
  Dict.getitem (data_structure parser) "DATA_GROUP_COLLECTION" = Ok root_value ->
  exists e written,
    update_output_file cd fs output_file (VFrame df) parser data_group category
    = (Raised e, <[output_file := written]> fs).
Proof.
  intros Hf Hd Hl Hm Hroot.
  rewrite (update_existing cd fs output_file (VFrame df) parser data_group
             category text json (VDict doc) merged)
    by (try assumption; try discriminate; unfold load_content; now rewrite Hl).
  unfold write_step.
  assert (Hstop : snd (Json.dump merged) <> None).
  { revert Hm. unfold merge_into. rewrite Hroot. simpl.
    destruct (Dict.hashable root_value) as [root|]; [simpl|discriminate].
    destruct (default (VDict []) (Dict.get doc root)); try discriminate.
    destruct (default (VDict []) (Dict.get entries (KStr data_group)));
      try discriminate.
    intros [= <-]. unfold Json.dump.
    eapply dict_stops; [apply get_set_same|].
    eapply dict_stops; [apply get_set_same|].
    eapply dict_stops; [apply get_set_same|].
    discriminate. }
  destruct (Json.dump merged) as [written [e|]]; [eauto|now destruct Hstop].
Qed.

(** ** The filter *)

Lemma map_result_first_failure {A B} (f : A -> result B) (xs : list A) :
  (exists x, In x xs /\ is_ok (f x) = false) ->
  exists x e, In x xs /\ f x = Raise e /\ map_result f xs = Raise e.
Proof.
  induction xs as [|x xs IH]; intros (y & Hin & Hy); [destruct Hin|].
  simpl. destruct (f x) as [b|e] eqn:Hfx.
  - destruct Hin as [->|Hin]; [rewrite Hfx in Hy; discriminate|].
    destruct IH as (z & e & Hz & Hfz & Hmap); [eauto|].
    exists z, e. simpl. rewrite Hmap. auto.
  - exists x, e. simpl. auto.
Qed.

Lemma map_result_all_ok {A B} (f : A -> result B) (xs : list A) :
  (forall x, In x xs -> is_ok (f x) = true) ->
  exists ys, map_result f xs = Ok ys /\ length ys = length xs.
Proof.
  induction xs as [|x xs IH]; intros Hall; simpl.
  - exists []. auto.
  - destruct (f x) as [b|e] eqn:Hfx.
    + destruct IH as (ys & -> & Hlen); [intros; apply Hall; now right|].
      exists (b :: ys). simpl. auto.
    + specialize (Hall x (or_introl eq_refl)). rewrite Hfx in Hall.
      discriminate.
Qed.

(** The loop stops at an element on which the body raises. *)
Lemma map_result_raise {A B} (f : A -> result B) xs err :
  map_result f xs = Raise err -> exists x, In x xs /\ f x = Raise err.
Proof.
  induction xs as [|x xs IH]; simpl; [discriminate|].
  destruct (f x) as [y|e] eqn:Hfx; simpl.
  - destruct (map_result f xs) as [ys|e]; simpl; [discriminate|].
    intros [= <-]. destruct IH as (x' & Hin & Hx'); [reflexivity|].
    exists x'. auto.
  - intros [= <-]. exists x. auto.
Qed.

(** A name that does not resolve is the engine's undefined-name error. *)
Lemma resolve_undefined df name :
  Query.defined df name = false ->
  Query.resolve df name = Raise (UndefinedVariableError name).
Proof.
  unfold Query.defined, Query.resolve, Query.engine_names, Query.name_in.
  destruct (Query.column_position (columns df) name); [discriminate|].
  rewrite !existsb_app, !orb_false_iff. intros (-> & -> & -> & ->).
  reflexivity.
Qed.

(** The exceptions of the name resolution. *)
Lemma resolve_error df name err :
  Query.resolve df name = Raise err ->
  (Query.defined df name = false /\ err = UndefinedVariableError name)
  \/ exists what, err = TypeError what.
Proof.
  unfold Query.defined, Query.resolve, Query.engine_names, Query.name_in.
  destruct (Query.column_position (columns df) name); [discriminate|].
  rewrite !existsb_app.
  destruct (existsb (String.eqb name) Query.index_names); [discriminate|].
  destruct (existsb (String.eqb name) Query.axis_names).
  { intros [= <-]. right. eauto. }
  destruct (existsb (String.eqb name) Query.infinity_names); [discriminate|].
  destruct (existsb (String.eqb name) Query.type_names); [discriminate|].
  intros [= <-]. left. auto.
Qed.

Lemma eval_term_error df t err :
  Query.eval_term df t = Raise err ->
  (exists name, In name (Query.term_names t)
                /\ Query.defined df name = false
                /\ err = UndefinedVariableError name)
  \/ exists what, err = TypeError what.
Proof.
  destruct t as [name|s|z]; simpl; try discriminate.
  intros H. apply resolve_error in H as [[Hund ->]|H]; [left|now right].
  exists name. auto.
Qed.

Lemma value_ltb_error x y err :
  Query.value_ltb x y = Raise err -> exists what, err = TypeError what.
Proof.
  destruct x as [[a|a|]| |a], y as [[b|b|]| |b]; simpl;
    intros [= <-]; eauto.
Qed.

(** A comparison raises nothing but a TypeError. *)
Lemma compare_error op x y err :
  Query.compare op x y = Raise err -> exists what, err = TypeError what.
Proof.
  destruct op; simpl; try discriminate; try apply value_ltb_error.
  - destruct (Query.value_ltb y x) eqn:H; simpl; [discriminate|].
    intros [= <-]. now apply value_ltb_error in H.
  - destruct (Query.value_ltb x y) eqn:H; simpl; [discriminate|].
    intros [= <-]. now apply value_ltb_error in H.
Qed.

Lemma broadcast_error {A B} (f : A -> A -> result B) (P : exn -> Prop) x y err :
  (forall a b e, f a b = Raise e -> P e) ->
  Query.broadcast f x y = Raise err -> P err.
Proof.
  intros Hf. destruct x as [a|xs], y as [b|ys]; simpl.
  - destruct (f a b) eqn:H; simpl; [discriminate|].
    intros [= <-]. eauto.
  - destruct (map_result (f a) ys) eqn:H; simpl; [discriminate|].
    intros [= <-]. apply map_result_raise in H as (z & _ & H). eauto.
  - destruct (map_result (fun a => f a b) xs) eqn:H; simpl; [discriminate|].
    intros [= <-]. apply map_result_raise in H as (z & _ & H). eauto.
  - destruct (map_result (fun p => f (fst p) (snd p)) (combine xs ys)) eqn:H;
      simpl; [discriminate|].
    intros [= <-]. apply map_result_raise in H as (z & _ & H). eauto.
Qed.

(** The exceptions of the evaluation of a clause. *)
Lemma eval_error df e err :
  Query.eval df e = Raise err -> query_error df e err.
Proof.
  revert err. induction e as [op a b|a IHa b IHb|a IHa b IHb|a IHa];
    intros err; simpl.
  - destruct (Query.eval_term df a) as [x|ea] eqn:Ha; simpl.
    + destruct (Query.eval_term df b) as [y|eb] eqn:Hb; simpl.
      * intros H. right.
        apply (broadcast_error _ (fun e => exists what, e = TypeError what))
          in H; [assumption|].
        intros ? ? ?. apply compare_error.
      * intros [= <-].
        apply eval_term_error in Hb as [(name & Hin & Hund & ->)|H];
          [left|now right].
        exists name. repeat split; auto. apply in_or_app. now right.
    + intros [= <-].
      apply eval_term_error in Ha as [(name & Hin & Hund & ->)|H];
        [left|now right].
      exists name. repeat split; auto. apply in_or_app. now left.
  - destruct (Query.eval df a) as [x|ea]; simpl.
    + destruct (Query.eval df b) as [y|eb]; simpl.
      * intros H.
        apply (broadcast_error _ (fun _ => False)) in H; [destruct H|].
        discriminate.
      * intros [= <-].
        destruct (IHb eb eq_refl) as [(name & Hin & Hund & ->)|H];
          [left|now right].
        exists name. repeat split; auto. apply in_or_app. now right.
    + intros [= <-].
      destruct (IHa ea eq_refl) as [(name & Hin & Hund & ->)|H];
        [left|now right].
      exists name. repeat split; auto. apply in_or_app. now left.
  - destruct (Query.eval df a) as [x|ea]; simpl.
    + destruct (Query.eval df b) as [y|eb]; simpl.
      * intros H.
        apply (broadcast_error _ (fun _ => False)) in H; [destruct H|].
        discriminate.
      * intros [= <-].
        destruct (IHb eb eq_refl) as [(name & Hin & Hund & ->)|H];
          [left|now right].
        exists name. repeat split; auto. apply in_or_app. now right.
    + intros [= <-].
      destruct (IHa ea eq_refl) as [(name & Hin & Hund & ->)|H];
        [left|now right].
      exists name. repeat split; auto. apply in_or_app. now left.
  - destruct (Query.eval df a) as [[p|ps]|ea]; simpl; try discriminate.
    intros [= <-]. now apply IHa.
Qed.

(** A clause with a name that does not resolve has no value. *)
Lemma eval_undefined df e name :
  In name (Query.names e) -> Query.defined df name = false ->
  exists err, Query.eval df e = Raise err.
Proof.
  intros Hin Hund.
  induction e as [op a b|a IHa b IHb|a IHa b IHb|a IHa]; simpl in *.
  - apply in_app_or in Hin as [Hin|Hin].
    + destruct a as [n|s|z]; simpl in Hin; try contradiction.
      destruct Hin as [->|[]]. simpl. rewrite (resolve_undefined _ _ Hund).
      simpl. eauto.
    + destruct (Query.eval_term df a) as [x|ea]; simpl; [|eauto].
      destruct b as [n|s|z]; simpl in Hin; try contradiction.
      destruct Hin as [->|[]]. simpl. rewrite (resolve_undefined _ _ Hund).
      simpl. eauto.
  - apply in_app_or in Hin as [Hin|Hin].
    + destruct (IHa Hin) as (err & ->). simpl. eauto.
    + destruct (Query.eval df a) as [x|ea]; simpl; [|eauto].
      destruct (IHb Hin) as (err & ->). simpl. eauto.
  - apply in_app_or in Hin as [Hin|Hin].
    + destruct (IHa Hin) as (err & ->). simpl. eauto.
    + destruct (Query.eval df a) as [x|ea]; simpl; [|eauto].
      destruct (IHb Hin) as (err & ->). simpl. eauto.
  - destruct (IHa Hin) as (err & ->). simpl. eauto.
Qed.

(** A query keeps the columns of the frame. *)
Lemma query_columns df e filtered :
  Query.query df e = Ok filtered -> columns filtered = columns df.
Proof.
  unfold Query.query.
  destruct (Query.eval df e) as [[b|mask]|]; simpl; try discriminate.
  now intros [= <-].
Qed.

Lemma where_step_columns parse df where_clause filtered :
  where_step parse df where_clause = Ok filtered ->
  columns filtered = columns df.
Proof.
  unfold where_step. destruct (truthy where_clause) as [clause|].
  - destruct (parse clause) as [e|]; [apply query_columns|discriminate].
  - now intros [= <-].
Qed.

(** A list of names with a name that labels no column is a KeyError. *)
Lemma getitem_list_missing df names name :
  In name names -> Query.column_position (columns df) name = None ->
  exists name', In name' names
                /\ Query.column_position (columns df) name' = None
                /\ Query.getitem_list df names = Raise (KeyError name').
Proof.
  intros Hin Hnone. unfold Query.getitem_list.
  destruct (map_result_first_failure
              (fun name => match Query.column_position (columns df) name with
                           | Some pos => Ok pos
                           | None => Raise (KeyError name)
                           end) names) as (name' & e & Hin' & He & Hmap).
  { exists name. now rewrite Hnone. }
  rewrite Hmap. exists name'.
  destruct (Query.column_position (columns df) name'); [discriminate|].
  injection He as <-. auto.
Qed.

(** A list of names that all label columns selects them, in the order
    given, on every row. *)
Lemma getitem_list_present df names :
  (forall name, In name names ->
                Query.column_position (columns df) name <> None) ->
  exists r, Query.getitem_list df names = Ok r
            /\ columns r = map LStr names
            /\ index r = index df
            /\ length (rows r) = length (rows df).
Proof.
  intros Hall. unfold Query.getitem_list.
  destruct (map_result_all_ok
              (fun name => match Query.column_position (columns df) name with
                           | Some pos => Ok pos
                           | None => Raise (KeyError name)
                           end) names) as (ps & -> & _).
  { intros name Hin. specialize (Hall name Hin).
    now destruct (Query.column_position (columns df) name). }
  simpl. eexists. repeat split. simpl. apply length_map.
Qed.

Lemma filter_data_steps parse df select_columns where_clause :
  filter_data parse df select_columns where_clause
  = let* filtered_df := where_step parse df where_clause in
    select_step filtered_df select_columns.
Proof. reflexivity. Qed.

(** C7, as worded: every clause that parses and names something that is
    no column of the table makes the filtering fail.  It does not: the
    engine resolves [index] to the row labels, so [index == 0] on a frame
    without a column of that name returns the row labelled 0. *)
Lemma C7_counterexample :
  ~ (forall (parse : string -> option expr) (df : DataFrame)
            (select_columns where_clause : option string) clause e name,
        truthy where_clause = Some clause ->
        parse clause = Some e ->
        In name (Query.names e) ->
        Query.column_position (columns df) name = None ->
        exists err,
          filter_data parse df select_columns where_clause = Raise err).
Proof.
  intros H.
  destruct (H (parser_of_clause "index == 0" (ECmp OpEq (TName "index") (TInt 0)))
              example_frame None (Some "index == 0")
              "index == 0" (ECmp OpEq (TName "index") (TInt 0)) "index"
              eq_refl eq_refl (or_introl eq_refl) eq_refl) as (err & Herr).
  vm_compute in Herr. discriminate.
Qed.

(** C7: a clause that parses and names something that is neither a column
    of the table nor one of the engine's own names (the index, the column
    axis, the default names of its scope) raises: the engine's
    undefined-name error for a name of the clause that does not resolve,
    or the TypeError of a comparison it evaluated before it reached that
    name.  A column list naming an absent column raises (the KeyError of
    the selection, unless the clause has raised before it).  An exception
    carries no rows. *)
Theorem C7_absent_column_fails
    (parse : string -> option expr) (df : DataFrame)
    (select_columns where_clause : option string) :
  (forall clause e name,
      truthy where_clause = Some clause ->
      parse clause = Some e ->
      In name (Query.names e) ->
      Query.column_position (columns df) name = None ->
      Query.name_in name Query.engine_names = false ->
      exists err,
        filter_data parse df select_columns where_clause = Raise err
        /\ query_error df e err)
  /\ (forall cols name,
         truthy select_columns = Some cols ->
         In name (Py.split "," cols) ->
         Query.column_position (columns df) name = None ->
         exists err,
           filter_data parse df select_columns where_clause = Raise err
           /\ (where_step parse df where_clause = Raise err
               \/ exists name',
                    In name' (Py.split "," cols)
                    /\ Query.column_position (columns df) name' = None
                    /\ err = KeyError name')).
Proof.
  split.
  - intros clause e name Hw Hp Hin Hcol Heng.
    assert (Hund : Query.defined df name = false).
    { unfold Query.defined. now rewrite Hcol. }
    destruct (eval_undefined df e name Hin Hund) as (err & He).
    exists err. split; [|now apply eval_error].
    unfold filter_data. rewrite Hw, Hp. unfold Query.query. now rewrite He.
  - intros cols name Hs Hin Hnone. rewrite filter_data_steps.
    destruct (where_step parse df where_clause) as [filtered|err] eqn:Hw.
    + simpl. unfold select_step. rewrite Hs.
      pose proof (where_step_columns _ _ _ _ Hw) as Hcols.
      destruct (getitem_list_missing filtered _ name Hin) as (name' & ? & ? & Hg).
      { now rewrite Hcols. }
      rewrite Hg. exists (KeyError name'). split; [reflexivity|].
      right. exists name'. rewrite <- Hcols. auto.
    + exists err. auto.
Qed.

Lemma C7_absent_column_fails_witness :
  (exists err,
      filter_data
        (parser_of_clause "COLOR == 1" (ECmp OpEq (TName "COLOR") (TInt 1)))
        example_frame None (Some "COLOR == 1") = Raise err
      /\ query_error example_frame (ECmp OpEq (TName "COLOR") (TInt 1)) err)
  /\ (exists err,
         filter_data
           (parser_of_clause "COLOR == 1" (ECmp OpEq (TName "COLOR") (TInt 1)))
           example_frame (Some "NAME,COLOR") None = Raise err).
Proof.
  split.
  - apply (proj1 (C7_absent_column_fails
                    (parser_of_clause "COLOR == 1"
                       (ECmp OpEq (TName "COLOR") (TInt 1)))
                    example_frame None (Some "COLOR == 1"))
             "COLOR == 1" (ECmp OpEq (TName "COLOR") (TInt 1)) "COLOR");
      try reflexivity.
    simpl. auto.
  - destruct (proj2 (C7_absent_column_fails
                       (parser_of_clause "COLOR == 1"
                          (ECmp OpEq (TName "COLOR") (TInt 1)))
                       example_frame (Some "NAME,COLOR") None)
                "NAME,COLOR" "COLOR") as (err & Herr & _);
      try reflexivity.
    + simpl. auto.
    + eauto.
Defined.

(** C9: [filter_data] runs the clause on the full-width rows and selects
    the columns of what the clause kept; so a clause may name columns the
    selection leaves out: when the query succeeds and the column list
    names columns of the frame, the result is the selection from the
    filtered frame, with exactly the listed columns. *)
Theorem C9_where_before_select
    (parse : string -> option expr) (df : DataFrame) :
  (forall select_columns where_clause,
      filter_data parse df select_columns where_clause
      = let* filtered_df := where_step parse df where_clause in
        select_step filtered_df select_columns)
  /\ (forall cols clause e filtered,
         cols <> EmptyString -> clause <> EmptyString ->
         parse clause = Some e ->
         Query.query df e = Ok filtered ->
         (forall name, In name (Py.split "," cols) ->
                       Query.column_position (columns df) name <> None) ->
         exists r,
           filter_data parse df (Some cols) (Some clause) = Ok r
           /\ Query.getitem_list filtered (Py.split "," cols) = Ok r
           /\ columns r = map LStr (Py.split "," cols)
           /\ index r = index filtered
           /\ length (rows r) = length (rows filtered)).
Proof.
  split; [reflexivity|].
  intros cols clause e filtered Hc Hw Hp Hq Hall.
  destruct (getitem_list_present filtered (Py.split "," cols))
    as (r & Hr & Hcols & Hidx & Hlen).
  { intros name Hin. rewrite (query_columns _ _ _ Hq). now apply Hall. }
  exists r. repeat split; try assumption.
  unfold filter_data.
  destruct clause; [congruence|]. destruct cols; [congruence|].
  simpl truthy. cbv iota. rewrite Hp, Hq. exact Hr.
Qed.

Lemma C9_where_before_select_witness :
  exists r,
    filter_data
      (parser_of_clause "SIZE == 25" (ECmp OpEq (TName "SIZE") (TInt 25)))
      example_frame (Some "NAME") (Some "SIZE == 25") = Ok r
    /\ columns r = [LStr "NAME"]
    /\ rows r = [[CStr "b"]; [CStr "c"]].
Proof.
  destruct (proj2 (C9_where_before_select
                     (parser_of_clause "SIZE == 25"
                        (ECmp OpEq (TName "SIZE") (TInt 25)))
                     example_frame)
              "NAME" "SIZE == 25" (ECmp OpEq (TName "SIZE") (TInt 25))
              {| columns := [LStr "NAME"; LStr "SIZE"];
                 index := [LInt 1; LInt 2];
                 rows := [[CStr "b"; CInt 25]; [CStr "c"; CInt 25]] |})
    as (r & Hr & Hg & Hcols & _); try discriminate; try reflexivity.
  - intros name [<-|[]]. discriminate.
  - exists r. split; [exact Hr|]. split; [exact Hcols|].
    simpl in Hg. injection Hg as <-. reflexivity.
Defined.

(** ** The row slice *)

Section Slice.

Context {A : Type}.
Implicit Types (l : list A) (start stop : option Z).


Lemma py_slice_all l : Pandas.py_slice l (Some 0) None = l.
Proof.
  unfold Pandas.py_slice. simpl.
  replace (Z.to_nat (Z.of_nat (length l) - Z.min 0 (Z.of_nat (length l))))
    with (length l) by lia.
  replace (Z.to_nat (Z.min 0 (Z.of_nat (length l)))) with 0%nat by lia.
  apply firstn_all.
Qed.

(** Inside the table the slice is half-open: from [a], up to [b]
    excluded. *)
Lemma py_slice_in_range l (a b : nat) :
  (a <= b <= length l)%nat ->
  Pandas.py_slice l (Some (Z.of_nat a)) (Some (Z.of_nat b))
  = firstn (b - a) (skipn a l).
Proof.
  intros H. unfold Pandas.py_slice, Pandas.slice_bound.
  destruct (Z.ltb_spec (Z.of_nat a) 0); [lia|].
  destruct (Z.ltb_spec (Z.of_nat b) 0); [lia|].
  f_equal; [|f_equal]; lia.
Qed.



(** A negative bound counts from the end, and is clipped at the
    beginning. *)
Lemma slice_bound_negative n default (i : Z) :
  i < 0 ->
  Pandas.slice_bound n default (Some i)
  = if i + n <? 0 then 0 else i + n.
Proof.
  intros H. unfold Pandas.slice_bound.
  destruct (Z.ltb_spec i 0); [|lia]. destruct (Z.ltb_spec (i + n) 0); lia.
Qed.




(** The slice is a run of consecutive entries of the table, in their
    order; it exists whatever the bounds are. *)
Lemma py_slice_contiguous l start stop :
  exists before after,
    l = (before ++ Pandas.py_slice l start stop ++ after)%list.
Proof.
  unfold Pandas.py_slice.
  match goal with
  | |- context [firstn ?k (skipn ?lo l)] =>
      exists (firstn lo l), (skipn k (skipn lo l));
      now rewrite (firstn_skipn k (skipn lo l)), (firstn_skipn lo l)
  end.
Qed.

End Slice.

Lemma iloc_slice_all df : Pandas.iloc_slice df (Some 0) None = df.
Proof.
  destruct df as [cols idx rs]. unfold Pandas.iloc_slice. simpl columns.
  simpl index. simpl rows. now rewrite !py_slice_all.
Qed.



(** ** Extraction *)

Lemma ascending_weaken lo lo' hi ms :
  (lo' <= lo)%nat -> ascending lo hi ms -> ascending lo' hi ms.
Proof. destruct ms; simpl; [auto|]. intros ? [? ?]. split; [lia|auto]. Qed.

(** The marker rows found are ascending positions of the sheet. *)
Lemma positions_from_ascending keyword rs i :
  ascending i (i + length rs) (Pandas.positions_from i keyword rs).
Proof.
  revert i. induction rs as [|r rs IH]; intros i; simpl; [exact I|].
  specialize (IH (S i)).
  replace (i + S (length rs))%nat with (S i + length rs)%nat by lia.
  destruct (Pandas.first_column_is keyword r).
  - simpl. split; [lia|exact IH].
  - apply (ascending_weaken (S i)); [lia|exact IH].
Qed.

Lemma gaps_length n ms : length (gaps n ms) = length ms.
Proof. induction ms; simpl; congruence. Qed.

(** The rows of the segments, the marker rows and the rows before the
    first marker make up the sheet. *)
Lemma gaps_sum lo n ms :
  ascending lo n ms -> ms <> [] ->
  (list_sum (gaps n ms) + length ms + hd 0 ms = n)%nat.
Proof.
  revert lo. induction ms as [|m rest IH]; intros lo Hasc Hne; [congruence|].
  destruct rest as [|m' rest].
  - simpl in *. lia.
  - destruct Hasc as [Hm Hrest].
    specialize (IH (S m) Hrest ltac:(discriminate)).
    destruct Hrest as [Hm' _].
    change (gaps n (m :: m' :: rest))
      with ((m' - (m + 1))%nat :: gaps n (m' :: rest)).
    remember (gaps n (m' :: rest)) as g eqn:Hg. clear Hg.
    simpl list_sum. simpl length in *. simpl hd in *. lia.
Qed.

Lemma gaps_nth n ms i :
  (i < length ms)%nat ->
  nth i (gaps n ms) 0%nat
  = ((if (i + 1 <? length ms)%nat then nth (i + 1) ms 0%nat else n)
     - (nth i ms 0%nat + 1))%nat.
Proof.
  revert i. induction ms as [|m rest IH]; intros i Hi; [simpl in Hi; lia|].
  destruct i as [|i].
  - destruct rest; reflexivity.
  - simpl in Hi. simpl gaps. simpl nth at 1. rewrite IH by lia.
    replace (S i + 1)%nat with (S (i + 1)) by lia. simpl length.
    change (S (i + 1) <? S (length rest))%nat
      with (i + 1 <? length rest)%nat.
    reflexivity.
Qed.

Lemma ascending_nth lo n ms i :
  ascending lo n ms -> (i < length ms)%nat ->
  (nth i ms 0 + 1
   <= (if (i + 1 <? length ms)%nat then nth (i + 1) ms 0%nat else n) <= n)%nat.
Proof.
  revert lo i. induction ms as [|m rest IH]; intros lo i Hasc Hi;
    [simpl in Hi; lia|].
  destruct Hasc as [Hm Hrest]. destruct i as [|i].
  - destruct rest as [|m' rest]; simpl in *; [lia|].
    destruct Hrest as [? _]. lia.
  - simpl in Hi. specialize (IH (S m) i Hrest ltac:(lia)).
    replace (S i + 1)%nat with (S (i + 1)) by lia. simpl length.
    change (S (i + 1) <? S (length rest))%nat
      with (i + 1 <? length rest)%nat.
    exact IH.
Qed.

Lemma map_nth_seq (l : list nat) :
  map (fun i => nth i l 0%nat) (seq 0 (length l)) = l.
Proof.
  induction l as [|x l IH]; [reflexivity|].
  simpl. f_equal. rewrite <- seq_shift, map_map. exact IH.
Qed.

Lemma set_first_column_tails rs vs :
  length vs = length rs ->
  map (@tl cell) (Pandas.set_first_column rs vs) = map (@tl cell) rs
  /\ length (Pandas.set_first_column rs vs) = length rs.
Proof.
  revert vs. induction rs as [|r rs IH]; intros [|v vs] Hlen;
    try discriminate; [split; reflexivity|].
  simpl in Hlen. destruct (IH vs ltac:(lia)) as [Ht Hl].
  simpl. rewrite Ht, Hl. split; reflexivity.
Qed.

Lemma RangeIndex_length n : length (Pandas.RangeIndex n) = n.
Proof. unfold Pandas.RangeIndex. now rewrite length_map, length_seq. Qed.

(** Row [j] after a Series was written into the first column along the
    row numbers. *)
Lemma set_first_column_nth rs ser k j :
  (j < length rs)%nat ->
  nth j (Pandas.set_first_column rs
           (map (Pandas.series_get ser)
              (map (fun i => LInt (Z.of_nat i)) (seq k (length rs))))) []
  = Pandas.series_get ser (LInt (Z.of_nat (k + j))) :: tl (nth j rs []).
Proof.
  revert k j. induction rs as [|r rs IH]; intros k j Hj; [simpl in Hj; lia|].
  destruct j as [|j]; simpl.
  - now rewrite Nat.add_0_r.
  - replace (k + S j)%nat with (S k + j)%nat by lia.
    apply IH. simpl in Hj. lia.
Qed.

(** The table of marker [i] when its segment has rows: the rows after the
    marker up to the next marker or the end, their first cell replaced by
    the tag. *)
Lemma table_of_marker_rows df key_name lo ms i :
  key_name <> "self" ->
  ascending lo (length (rows df)) ms ->
  (i < length ms)%nat ->
  (nth i ms 0 + 1 < segment_stop df ms i)%nat ->
  exists t,
    table_of_marker df (LStr key_name) ms i = Ok t
    /\ columns t = columns df
    /\ map (@tl cell) (rows t) = map (@tl cell) (rows_after_marker df ms i)
    /\ length (rows t) = nth i (gaps (length (rows df)) ms) 0%nat
    /\ (forall j, (j < length (rows_after_marker df ms i))%nat ->
                  nth j (rows t) []
                  = tag df ms i j :: tl (nth j (rows_after_marker df ms i) [])).
Proof.
  intros Hself Hasc Hi Hne. apply String.eqb_neq in Hself.
  pose proof (ascending_nth _ _ _ _ Hasc Hi) as Hb.
  unfold table_of_marker.
  replace (if (i + 1 <? length ms)%nat
           then Z.of_nat (nth (i + 1) ms 0%nat)
           else Z.of_nat (length (rows df)))
    with (Z.of_nat (segment_stop df ms i))
    by (unfold segment_stop; now destruct (i + 1 <? length ms)%nat).
  replace (Z.of_nat (nth i ms 0%nat) + 1) with (Z.of_nat (nth i ms 0 + 1)%nat) by lia.
  unfold segment_stop in *.
  set (stop := if (i + 1 <? length ms)%nat then nth (i + 1) ms 0%nat
               else length (rows df)) in *.
  set (m := nth i ms 0%nat) in *.
  unfold Pandas.assign_first_column, Pandas.reset_index, Pandas.iloc_slice.
  rewrite Hself. cbn [columns index rows].
  rewrite (py_slice_in_range (rows df) (m + 1) stop) by lia.
  assert (Hlen : length (firstn (stop - (m + 1)) (skipn (m + 1) (rows df)))
                 = (stop - (m + 1))%nat).
  { rewrite length_firstn, length_skipn. lia. }
  assert (Hafter : rows_after_marker df ms i
                   = firstn (stop - (m + 1)) (skipn (m + 1) (rows df))).
  { unfold rows_after_marker, segment_stop. reflexivity. }
  unfold tag. rewrite Hafter. fold m.
  destruct (firstn (stop - (m + 1)) (skipn (m + 1) (rows df)))
    as [|r rs] eqn:Hrows; [simpl in Hlen; lia|].
  cbn [columns index rows].
  destruct (set_first_column_tails (r :: rs)
              (Pandas.reindex (Pandas.iloc_row df m)
                 (Pandas.RangeIndex (length (r :: rs))))) as [Ht Hl].
  { unfold Pandas.reindex. now rewrite length_map, RangeIndex_length. }
  eexists. split; [reflexivity|]. cbn [columns index rows].
  split; [reflexivity|]. split; [exact Ht|]. split.
  - rewrite Hl, Hlen, gaps_nth by assumption. reflexivity.
  - intros j Hj.
    apply (set_first_column_nth (r :: rs) (Pandas.iloc_row df m) 0 j Hj).
Qed.

Lemma map_result_pointwise {A B} (f : A -> result B) (P : A -> B -> Prop)
    (xs : list A) :
  (forall x, In x xs -> exists y, f x = Ok y /\ P x y) ->
  exists ys, map_result f xs = Ok ys /\ Forall2 P xs ys.
Proof.
  induction xs as [|x xs IH]; intros Hall.
  - exists []. split; [reflexivity|constructor].
  - destruct (Hall x (or_introl eq_refl)) as (y & Hy & HP).
    destruct IH as (ys & Hys & HF); [intros; apply Hall; now right|].
    exists (y :: ys). simpl. rewrite Hy. simpl. rewrite Hys.
    split; [reflexivity|now constructor].
Qed.

Lemma Forall2_seq_nth {B} (P : nat -> B -> Prop) (ys : list B) k d :
  Forall2 P (seq k (length ys)) ys ->
  forall i, (i < length ys)%nat -> P (k + i)%nat (nth i ys d).
Proof.
  revert k. induction ys as [|y ys IH]; intros k HF i Hi; [simpl in Hi; lia|].
  simpl in HF. inversion HF as [|? ? ? ? Hy Hrest]; subst.
  destruct i as [|i].
  - now rewrite Nat.add_0_r.
  - simpl. replace (k + S i)%nat with (S k + i)%nat by lia.
    apply IH; [exact Hrest|simpl in Hi; lia].
Qed.

Lemma Forall2_map_eq {A B C} (f : A -> C) (g : B -> C) xs ys :
  Forall2 (fun x y => g y = f x) xs ys -> map g ys = map f xs.
Proof. induction 1; simpl; congruence. Qed.

Lemma no_empty_segment_nth df ms i :
  no_empty_segment df ms = true -> (i < length ms)%nat ->
  (nth i ms 0 + 1 < segment_stop df ms i)%nat.
Proof.
  unfold no_empty_segment. rewrite forallb_forall. intros H Hi.
  apply Nat.ltb_lt. apply (H i). apply in_seq. lia.
Qed.

(** C1, as stated, is false: rows before the first marker belong to no
    segment, so the segments of a sheet that starts with such a row hold
    fewer than (total rows - K) rows. *)
Lemma C1_counterexample :
  ~ (forall df keyword key_name,
        hd (LInt 0) (columns df) = LStr key_name ->
        find_process_rows keyword df <> [] ->
        exists tables,
          extract_tables df (LStr key_name) (find_process_rows keyword df)
          = Ok tables
          /\ length tables = length (find_process_rows keyword df)
          /\ (total_rows tables + length (find_process_rows keyword df)
              = length (rows df))%nat).
Proof.
  intros H.
  destruct (H (read_excel [LStr "k"] [[CStr "x"]; [CStr "H"]; [CStr "a"]])
              "H" "k") as (tables & Ht & _ & Hsum).
  - reflexivity.
  - discriminate.
  - vm_compute in Ht. injection Ht as <-. vm_compute in Hsum. discriminate.
Qed.

(** C1, amended: on a sheet whose first column is labelled by a string
    other than [self], with K >= 1 marker rows none of which is directly
    followed by a marker row or by the end of the sheet, extraction
    produces exactly K segments, in marker order; segment i holds the
    rows strictly after marker i up to (excluding) the next marker or the
    end of the sheet, their first cell replaced by the tag (the value the
    marker row holds under the column labelled with the number of the row
    in its segment, NaN when there is no such column); and the row counts
    sum to (total rows - K - the number of rows before the first
    marker). *)
Theorem C1_segments (df : DataFrame) (keyword key_name : string) :
  hd (LInt 0) (columns df) = LStr key_name ->
  key_name <> "self" ->
  find_process_rows keyword df <> [] ->
  no_empty_segment df (find_process_rows keyword df) = true ->
  exists tables,
    extract_tables df (LStr key_name) (find_process_rows keyword df)
    = Ok tables
    /\ length tables = length (find_process_rows keyword df)
    /\ (forall i d,
           (i < length (find_process_rows keyword df))%nat ->
           map (@tl cell) (rows (nth i tables d))
           = map (@tl cell)
               (rows_after_marker df (find_process_rows keyword df) i)
           /\ length (rows (nth i tables d))
              = length (rows_after_marker df (find_process_rows keyword df) i)
           /\ columns (nth i tables d) = columns df
           /\ forall j,
                (j < length
                       (rows_after_marker df (find_process_rows keyword df) i))%nat ->
                nth j (rows (nth i tables d)) []
                = tag df (find_process_rows keyword df) i j
                  :: tl (nth j (rows_after_marker df
                                  (find_process_rows keyword df) i) []))
    /\ (total_rows tables + length (find_process_rows keyword df)
        + hd 0%nat (find_process_rows keyword df)
        = length (rows df))%nat
    /\ (forall self,
           header_keyword self = keyword ->
           start_table self = 0 -> end_table self = None ->
           exists r, _load_excel self df = Ok r
                     /\ rows r = List.concat (map rows tables)).
Proof.
  intros Hkey Hself Hne Hfull.
  set (ms := find_process_rows keyword df) in *.
  assert (Hasc : ascending 0 (length (rows df)) ms)
    by apply (positions_from_ascending keyword (rows df) 0).
  destruct (map_result_pointwise
              (table_of_marker df (LStr key_name) ms)
              (fun i t =>
                 columns t = columns df
                 /\ map (@tl cell) (rows t)
                    = map (@tl cell) (rows_after_marker df ms i)
                 /\ length (rows t) = nth i (gaps (length (rows df)) ms) 0%nat
                 /\ (forall j,
                        (j < length (rows_after_marker df ms i))%nat ->
                        nth j (rows t) []
                        = tag df ms i j
                          :: tl (nth j (rows_after_marker df ms i) [])))
              (seq 0 (length ms))) as (tables & Ht & HF).
  { intros i Hi. apply in_seq in Hi.
    apply (table_of_marker_rows df key_name 0); [assumption|assumption|lia|].
    apply no_empty_segment_nth; [assumption|lia]. }
  assert (Hlen : length tables = length ms).
  { apply Forall2_length in HF. now rewrite length_seq in HF. }
  exists tables. split; [exact Ht|]. split; [exact Hlen|].
  rewrite <- Hlen in HF. split; [|split].
  - intros i d Hi. rewrite <- Hlen in Hi.
    destruct (Forall2_seq_nth _ tables 0 d HF i Hi) as (Hc & Htl & _ & Htag).
    simpl in Hc, Htl, Htag. split; [exact Htl|]. split; [|split].
    + rewrite <- (length_map (@tl cell)), Htl. apply length_map.
    + exact Hc.
    + exact Htag.
  - unfold total_rows.
    rewrite (Forall2_map_eq
               (fun i => nth i (gaps (length (rows df)) ms) 0%nat)
               (fun t => length (rows t)) (seq 0 (length tables)) tables).
    + assert (Hg : map (fun i => nth i (gaps (length (rows df)) ms) 0%nat)
                     (seq 0 (length tables))
                   = gaps (length (rows df)) ms).
      { rewrite Hlen, <- (gaps_length (length (rows df)) ms).
        apply map_nth_seq. }
      rewrite Hg. now apply (gaps_sum 0).
    + eapply Forall2_impl; [exact HF|]. now intros i t (_ & _ & Hl & _).
  - intros self Hk Hs He.
    exists (Pandas.concat (columns df) tables). split; [|reflexivity].
    unfold _load_excel. rewrite Hk. fold ms.
    destruct (columns df) as [|key cols]; [discriminate Hkey|].
    simpl in Hkey. subst key.
    destruct ms as [|m ms'] eqn:Hms; [congruence|].
    unfold extract_tables in Ht. unfold extract_tables. rewrite Ht. simpl.
    rewrite Hs, He. now rewrite iloc_slice_all.
Qed.

Lemma C1_segments_witness :
  exists tables,
    extract_tables
      (read_excel [LStr "k"; LStr "v"]
         [[CStr "x"; CInt 0]; [CStr "H"; CInt 1]; [CStr "a"; CInt 2];
          [CStr "H"; CInt 3]; [CStr "b"; CInt 4]; [CStr "c"; CInt 5]])
      (LStr "k") [1; 3]%nat = Ok tables
    /\ length tables = 2%nat
    /\ (total_rows tables + 2 + 1 = 6)%nat.
Proof.
  destruct (C1_segments
              (read_excel [LStr "k"; LStr "v"]
                 [[CStr "x"; CInt 0]; [CStr "H"; CInt 1]; [CStr "a"; CInt 2];
                  [CStr "H"; CInt 3]; [CStr "b"; CInt 4]; [CStr "c"; CInt 5]])
              "H" "k") as (tables & Ht & Hlen & _ & Hsum & _).
  - reflexivity.
  - discriminate.
  - discriminate.
  - reflexivity.
  - exists tables. split; [exact Ht|]. split; [exact Hlen|exact Hsum].
Defined.

(** Why the conditions of the extraction theorem are there: a first
    column labelled by a number cannot be the keyword of [assign], the
    keyword [self] collides with the receiver of [assign], and a segment
    without rows takes the index of the marker row, one row per column. *)
Example extract_with_integer_label :
  extract_tables (read_excel [LInt 0] [[CStr "H"]; [CStr "a"]]) (LInt 0) [0%nat]
  = Raise (TypeError "keywords must be strings").
Proof. reflexivity. Qed.

Example extract_with_label_self :
  extract_tables (read_excel [LStr "self"] [[CStr "H"]; [CStr "a"]])
    (LStr "self") [0%nat]
  = Raise (TypeError "got multiple values for argument 'self'").
Proof. reflexivity. Qed.

Example extract_empty_segment :
  extract_tables
    (read_excel [LStr "k"; LStr "v"] [[CStr "H"; CInt 1]; [CStr "H"; CInt 2]])
    (LStr "k") [0; 1]%nat
  = Ok [ {| columns := [LStr "k"; LStr "v"];
            index := [LStr "k"; LStr "v"];
            rows := [[CStr "H"; CNaN]; [CInt 1; CNaN]] |};
         {| columns := [LStr "k"; LStr "v"];
            index := [LStr "k"; LStr "v"];
            rows := [[CStr "H"; CNaN]; [CInt 2; CNaN]] |} ].
Proof. reflexivity. Qed.

(** * Further properties of the extraction *)

(** Line 59 finds exactly the rows whose first cell is the keyword. *)
Lemma positions_from_spec keyword rs i m :
  In m (Pandas.positions_from i keyword rs)
  <-> (i <= m < i + length rs)%nat
      /\ Pandas.first_column_is keyword (nth (m - i) rs []) = true.
Proof.
  revert i. induction rs as [|r rs IH]; intros i; simpl.
  - split; [intros []|]. intros [? _]. lia.
  - destruct (Pandas.first_column_is keyword r) eqn:Hr; simpl; rewrite IH.
    + split.
      * intros [<-|[Hb Hm]].
        -- split; [lia|]. now rewrite Nat.sub_diag.
        -- split; [lia|]. destruct (m - i)%nat as [|k] eqn:Hk; [lia|].
           replace k with (m - S i)%nat by lia. exact Hm.
      * intros [Hb Hm]. destruct (m - i)%nat as [|k] eqn:Hk.
        -- left. lia.
        -- right. split; [lia|]. replace (m - S i)%nat with k by lia. exact Hm.
    + split.
      * intros [Hb Hm]. split; [lia|].
        destruct (m - i)%nat as [|k] eqn:Hk; [lia|].
        replace k with (m - S i)%nat by lia. exact Hm.
      * intros [Hb Hm]. destruct (m - i)%nat as [|k] eqn:Hk.
        -- congruence.
        -- split; [lia|]. replace (m - S i)%nat with k by lia. exact Hm.
Qed.

(** X1: the marker rows [_load_excel] works with are exactly the
    positions of the rows whose first cell is the keyword string, each
    once and in ascending order. *)
Theorem find_process_rows_exact (keyword : string) (df : DataFrame) :
  (forall m,
      In m (find_process_rows keyword df)
      <-> (m < length (rows df))%nat
          /\ Pandas.first_column_is keyword (nth m (rows df) []) = true)
  /\ ascending 0 (length (rows df)) (find_process_rows keyword df).
Proof.
  split.
  - intros m. unfold find_process_rows. rewrite positions_from_spec.
    rewrite Nat.sub_0_r. simpl. split; intros [? ?]; split; auto; lia.
  - apply (positions_from_ascending keyword (rows df) 0).
Qed.

Lemma find_process_rows_exact_witness :
  In 2%nat (find_process_rows "H" example_sheet).
Proof.
  apply (proj2 (proj1 (find_process_rows_exact "H" example_sheet) 2%nat)).
  split; [simpl; lia|reflexivity].
Defined.

(** The loop of lines 63-69 raises nothing but the TypeError of the
    call of [assign]. *)
Lemma extract_tables_error df key ms e :
  extract_tables df key ms = Raise e ->
  exists what, e = TypeError what.
Proof.
  unfold extract_tables. intros H.
  apply map_result_raise in H as (i & _ & H).
  unfold table_of_marker, Pandas.assign_first_column in H.
  destruct key as [name|z].
  - destruct (String.eqb name "self"); [|discriminate].
    injection H as <-. eauto.
  - injection H as <-. eauto.
Qed.

(** X2: on a sheet with at least one column, [_load_excel] raises "no
    headers found" exactly when no row has the keyword in its first
    cell. *)
Theorem load_excel_no_markers (self : ExcelDataTransformer) (df : DataFrame) :
  columns df <> [] ->
  (_load_excel self df = Raise (NoHeadersFound (header_keyword self))
   <-> forall row, In row (rows df) ->
                   Pandas.first_column_is (header_keyword self) row = false).
Proof.
  intros Hcols. unfold _load_excel.
  destruct (columns df) as [|key cols]; [congruence|].
  assert (Hin : forall k,
             In k (find_process_rows (header_keyword self) df)
             <-> (k < length (rows df))%nat
                 /\ Pandas.first_column_is (header_keyword self)
                      (nth k (rows df) []) = true).
  { intros k. unfold find_process_rows. rewrite positions_from_spec.
    rewrite Nat.sub_0_r. simpl. split; intros [? ?]; split; auto; lia. }
  destruct (find_process_rows (header_keyword self) df) as [|m ms] eqn:Hms.
  - split; [|reflexivity]. intros _ row Hrow.
    destruct (In_nth _ _ [] Hrow) as (k & Hk & <-).
    destruct (Pandas.first_column_is (header_keyword self)
                (nth k (rows df) [])) eqn:E; [|reflexivity].
    destruct (proj2 (Hin k) (conj Hk E)).
  - split.
    + destruct (extract_tables df key (m :: ms)) as [tables|e] eqn:Ht; simpl;
        [discriminate|].
      apply extract_tables_error in Ht as (what & ->). discriminate.
    + intros Hnone. destruct (proj1 (Hin m) (or_introl eq_refl)) as [Hm Hmark].
      rewrite (Hnone _ (nth_In _ [] Hm)) in Hmark. discriminate.
Qed.

Lemma load_excel_no_markers_witness :
  _load_excel (configure main_config)
    (read_excel [LStr "k"] [[CStr "a"]; [CInt 1]; [CNaN]])
  = Raise (NoHeadersFound "HEADER_KEYWORD_TEXT").
Proof.
  apply (load_excel_no_markers (configure main_config)
           (read_excel [LStr "k"] [[CStr "a"]; [CInt 1]; [CNaN]])).
  - discriminate.
  - intros row [<-|[<-|[<-|[]]]]; reflexivity.
Defined.

Lemma label_eqb_refl l : label_eqb l l = true.
Proof. destruct l; simpl; [apply String.eqb_refl|apply Z.eqb_refl]. Qed.

(** The table of a marker whose segment has rows, in full. *)
Lemma table_of_marker_nonempty df key_name lo ms i :
  key_name <> "self" ->
  ascending lo (length (rows df)) ms ->
  (i < length ms)%nat ->
  (nth i ms 0 + 1 < segment_stop df ms i)%nat ->
  table_of_marker df (LStr key_name) ms i
  = Ok {| columns := columns df;
          index := Pandas.RangeIndex (length (rows_after_marker df ms i));
          rows := Pandas.set_first_column (rows_after_marker df ms i)
                    (Pandas.reindex (Pandas.iloc_row df (nth i ms 0%nat))
                       (Pandas.RangeIndex
                          (length (rows_after_marker df ms i)))) |}.
Proof.
  intros Hself Hasc Hi Hne. apply String.eqb_neq in Hself.
  pose proof (ascending_nth _ _ _ _ Hasc Hi) as Hb.
  unfold table_of_marker.
  replace (if (i + 1 <? length ms)%nat
           then Z.of_nat (nth (i + 1) ms 0%nat)
           else Z.of_nat (length (rows df)))
    with (Z.of_nat (segment_stop df ms i))
    by (unfold segment_stop; now destruct (i + 1 <? length ms)%nat).
  replace (Z.of_nat (nth i ms 0%nat) + 1)
    with (Z.of_nat (nth i ms 0 + 1)%nat) by lia.
  unfold rows_after_marker. unfold segment_stop in *.
  set (stop := if (i + 1 <? length ms)%nat then nth (i + 1) ms 0%nat
               else length (rows df)) in *.
  set (m := nth i ms 0%nat) in *.
  unfold Pandas.assign_first_column, Pandas.reset_index, Pandas.iloc_slice.
  rewrite Hself. cbn [columns index rows].
  rewrite (py_slice_in_range (rows df) (m + 1) stop) by lia.
  assert (Hlen : length (firstn (stop - (m + 1)) (skipn (m + 1) (rows df)))
                 = (stop - (m + 1))%nat).
  { rewrite length_firstn, length_skipn. lia. }
  destruct (firstn (stop - (m + 1)) (skipn (m + 1) (rows df)))
    as [|r rs] eqn:Hrows; [simpl in Hlen; lia|].
  reflexivity.
Qed.

Lemma series_get_number ser z :
  Forall (fun p => string_label (fst p)) ser ->
  Pandas.series_get ser (LInt z) = CNaN.
Proof.
  induction 1 as [|[k v] ser [s Hk] _ IH]; [reflexivity|].
  simpl in *. subst k. exact IH.
Qed.

Lemma reindex_range_nan ser n :
  Forall (fun p => string_label (fst p)) ser ->
  Forall (eq CNaN) (Pandas.reindex ser (Pandas.RangeIndex n)).
Proof.
  intros Hser. unfold Pandas.reindex, Pandas.RangeIndex.
  rewrite map_map. apply List.Forall_forall. intros c Hc.
  apply in_map_iff in Hc as (k & <- & _).
  symmetry. now apply series_get_number.
Qed.

Lemma set_first_column_nan rs vs :
  Forall (eq CNaN) vs ->
  Forall starts_with_nan (Pandas.set_first_column rs vs).
Proof.
  revert vs. induction rs as [|r rs IH]; intros vs Hvs; [constructor|].
  destruct Hvs as [|v vs <- Hvs]; simpl; constructor.
  - now exists (tl r).
  - now apply IH.
Qed.

Lemma iloc_row_labels df m :
  Forall string_label (columns df) ->
  Forall (fun p => string_label (fst p)) (Pandas.iloc_row df m).
Proof.
  intros Hcols. unfold Pandas.iloc_row.
  apply List.Forall_forall. intros [k v] Hin. apply in_combine_l in Hin.
  rewrite List.Forall_forall in Hcols. now apply Hcols.
Qed.

Lemma map_result_Forall {A B} (f : A -> result B) (P : B -> Prop) xs ys :
  (forall x y, In x xs -> f x = Ok y -> P y) ->
  map_result f xs = Ok ys -> Forall P ys.
Proof.
  revert ys. induction xs as [|x xs IH]; intros ys Hall; simpl.
  - intros [= <-]. constructor.
  - destruct (f x) as [y|] eqn:Hy; [simpl|discriminate].
    destruct (map_result f xs) as [ys'|]; [simpl|discriminate].
    intros [= <-]. constructor.
    + apply (Hall x); [now left|assumption].
    + apply IH; [|reflexivity]. intros x' y' Hin. apply Hall. now right.
Qed.

Lemma Forall_py_slice {A} (P : A -> Prop) (l : list A) start stop :
  Forall P l -> Forall P (Pandas.py_slice l start stop).
Proof.
  intros H. destruct (py_slice_contiguous l start stop) as (before & after & Hl).
  rewrite Hl in H. apply List.Forall_app in H as [_ H].
  now apply List.Forall_app in H as [H _].
Qed.

(** X3: on a sheet whose columns are all labelled by strings and on which
    every marker is followed by a row of its segment, every row of the
    table [_load_excel] returns has the missing value NaN in its first
    cell: the assignment of line 67 aligns the marker row, which is
    labelled by the column names, with the row numbers of the segment and
    finds nothing. *)
Theorem load_excel_tag_is_nan
    (self : ExcelDataTransformer) (df r : DataFrame) :
  Forall string_label (columns df) ->
  no_empty_segment df (find_process_rows (header_keyword self) df) = true ->
  _load_excel self df = Ok r ->
  Forall starts_with_nan (rows r).
Proof.
  intros Hcols Hfull. unfold _load_excel.
  set (ms := find_process_rows (header_keyword self) df) in *.
  assert (Hasc : ascending 0 (length (rows df)) ms)
    by apply (positions_from_ascending (header_keyword self) (rows df) 0).
  destruct (columns df) as [|key cols] eqn:Hc; [discriminate|].
  destruct ms as [|m ms'] eqn:Hms; [discriminate|]. rewrite <- Hms in *.
  destruct (extract_tables df key ms) as [tables|] eqn:Ht; [simpl|discriminate].
  intros [= <-]. simpl. apply Forall_py_slice.
  apply List.Forall_concat. apply List.Forall_map.
  inversion Hcols as [|? ? [key_name ->] _]; subst.
  eapply map_result_Forall; [|exact Ht].
  intros i t Hi Hti. apply in_seq in Hi.
  destruct (String.eqb_spec key_name "self") as [->|Hself].
  { unfold table_of_marker, Pandas.assign_first_column in Hti.
    rewrite String.eqb_refl in Hti. discriminate Hti. }
  rewrite (table_of_marker_nonempty df key_name 0) in Hti;
    [|assumption|assumption|lia|apply no_empty_segment_nth; [assumption|lia]].
  injection Hti as <-. simpl.
  apply set_first_column_nan, reindex_range_nan, iloc_row_labels.
  now rewrite Hc.
Qed.

Lemma load_excel_tag_is_nan_witness :
  Forall starts_with_nan [[CNaN; CInt 2]; [CNaN; CInt 5]].
Proof.
  apply (load_excel_tag_is_nan example_transformer
           (read_excel [LStr "k"; LStr "v"]
              [[CStr "H"; CInt 1]; [CStr "a"; CInt 2];
               [CStr "H"; CInt 4]; [CStr "b"; CInt 5]])
           {| columns := [LStr "k"; LStr "v"];
              index := [LInt 0; LInt 1];
              rows := [[CNaN; CInt 2]; [CNaN; CInt 5]] |}).
  - repeat constructor; eexists; reflexivity.
  - reflexivity.
  - reflexivity.
Defined.

Lemma set_first_column_const {X} (xs : list X) (blank : list cell) vs :
  length vs = length xs ->
  Pandas.set_first_column (map (fun _ => blank) xs) vs
  = map (fun v => v :: tl blank) vs.
Proof.
  revert vs. induction xs as [|x xs IH]; intros [|v vs] H; simpl in *;
    try reflexivity; try discriminate.
  f_equal. apply IH. lia.
Qed.

Lemma map_fst_combine_same {X Y} (xs : list X) (ys : list Y) :
  length ys = length xs -> map fst (combine xs ys) = xs.
Proof.
  revert ys. induction xs as [|x xs IH]; intros [|y ys] H; simpl in *;
    try reflexivity; try discriminate.
  f_equal. apply IH. lia.
Qed.

(** The assignment of line 67 on a frame without rows. *)
Lemma assign_on_empty_frame cols key_name ser :
  key_name <> "self" ->
  ser <> [] ->
  Pandas.assign_first_column
    {| columns := cols; index := []; rows := [] |} (LStr key_name) ser
  = Ok {| columns := cols;
          index := map fst ser;
          rows := map (fun v => v :: tl (map (fun _ => CNaN) cols))
                    (Pandas.reindex ser (map fst ser)) |}.
Proof.
  intros Hself Hser. apply String.eqb_neq in Hself.
  unfold Pandas.assign_first_column. rewrite Hself. cbn [rows].
  destruct ser as [|p ser]; [congruence|]. cbn [columns index rows].
  rewrite set_first_column_const; [reflexivity|].
  unfold Pandas.reindex. now rewrite !length_map.
Qed.

(** X4: on a sheet whose first column is labelled by a string other than
    [self] and whose marker row has one cell per column, a marker row
    directly followed by the next marker row or by the end of the sheet
    does not give a table without rows.  The assignment of line 67 gives
    the empty slice the index of the marker row, so the table has one row
    per column of the sheet, labelled by the column names; its first row
    starts with the keyword, and every cell after the first one is NaN. *)
Theorem empty_segment_rows
    (df : DataFrame) (keyword key_name : string) (i : nat) :
  hd (LInt 0) (columns df) = LStr key_name ->
  key_name <> "self" ->
  (i < length (find_process_rows keyword df))%nat ->
  segment_stop df (find_process_rows keyword df) i
  = (nth i (find_process_rows keyword df) 0 + 1)%nat ->
  length (nth (nth i (find_process_rows keyword df) 0%nat) (rows df) [])
  = length (columns df) ->
  exists t,
    table_of_marker df (LStr key_name) (find_process_rows keyword df) i = Ok t
    /\ index t = columns df
    /\ length (rows t) = length (columns df)
    /\ hd [] (rows t) = CStr keyword :: map (fun _ => CNaN) (tl (columns df))
    /\ Forall (fun row => tl row = map (fun _ => CNaN) (tl (columns df)))
         (rows t).
Proof.
  intros Hkey Hself Hi Hstop Hwidth.
  set (ms := find_process_rows keyword df) in *.
  set (m := nth i ms 0%nat) in *.
  assert (Hspec : (m < length (rows df))%nat
                  /\ Pandas.first_column_is keyword (nth m (rows df) []) = true).
  { pose proof (nth_In ms 0%nat Hi) as Hin. fold m in Hin.
    unfold ms, find_process_rows in Hin. apply positions_from_spec in Hin.
    rewrite Nat.sub_0_r in Hin. simpl in Hin. destruct Hin; split; auto; lia. }
  destruct Hspec as [Hm Hmark].
  unfold table_of_marker.
  replace (if (i + 1 <? length ms)%nat
           then Z.of_nat (nth (i + 1) ms 0%nat)
           else Z.of_nat (length (rows df)))
    with (Z.of_nat (segment_stop df ms i))
    by (unfold segment_stop; now destruct (i + 1 <? length ms)%nat).
  rewrite Hstop. fold m.
  replace (Z.of_nat m + 1) with (Z.of_nat (m + 1)%nat) by lia.
  unfold Pandas.reset_index, Pandas.iloc_slice. cbn [columns index rows].
  rewrite (py_slice_in_range (rows df) (m + 1) (m + 1)) by lia.
  rewrite Nat.sub_diag. cbn [firstn length Pandas.RangeIndex seq map].
  destruct (columns df) as [|key cols] eqn:Hc; [discriminate Hkey|].
  simpl in Hkey. subst key.
  destruct (nth m (rows df) []) as [|c cs] eqn:Hrow; [discriminate Hwidth|].
  simpl in Hmark. destruct c as [s| |]; try discriminate.
  apply String.eqb_eq in Hmark. subst s.
  rewrite assign_on_empty_frame;
    [|exact Hself|unfold Pandas.iloc_row; rewrite Hc, Hrow; discriminate].
  eexists. split; [reflexivity|]. cbn [columns index rows].
  unfold Pandas.iloc_row. rewrite Hc, Hrow.
  rewrite map_fst_combine_same by exact Hwidth.
  split; [reflexivity|]. split; [|split].
  - unfold Pandas.reindex. now rewrite !length_map.
  - cbn [combine Pandas.reindex map Pandas.series_get hd tl].
    now rewrite label_eqb_refl.
  - apply List.Forall_map. apply List.Forall_forall. reflexivity.
Qed.

Lemma empty_segment_rows_witness :
  exists t,
    table_of_marker example_sheet (LStr "k") [0; 2; 3]%nat 1 = Ok t
    /\ index t = [LStr "k"; LStr "v"]
    /\ length (rows t) = 2%nat
    /\ hd [] (rows t) = [CStr "H"; CNaN].
Proof.
  destruct (empty_segment_rows example_sheet "H" "k" 1)
    as (t & Ht & Hi & Hl & Hh & _); try reflexivity; try discriminate.
  - simpl. lia.
  - exists t. auto.
Defined.

Lemma py_slice_same_length {X Y} (l : list X) (l' : list Y) start stop :
  length l = length l' ->
  length (Pandas.py_slice l start stop) = length (Pandas.py_slice l' start stop).
Proof.
  intros H. unfold Pandas.py_slice.
  rewrite !length_firstn, !length_skipn. now rewrite H.
Qed.

(** X5: the table [_load_excel] returns has the columns of the sheet and
    one index label per row; from 0 and without an end the rows are
    numbered 0, 1, 2, ... anew. *)
Theorem load_excel_frame (self : ExcelDataTransformer) (df r : DataFrame) :
  _load_excel self df = Ok r ->
  columns r = columns df
  /\ length (index r) = length (rows r)
  /\ (start_table self = 0 -> end_table self = None ->
      index r = Pandas.RangeIndex (length (rows r))).
Proof.
  unfold _load_excel.
  destruct (columns df) as [|key cols]; [discriminate|].
  destruct (find_process_rows (header_keyword self) df) as [|m ms];
    [discriminate|].
  destruct (extract_tables df key (m :: ms)) as [tables|]; [simpl|discriminate].
  intros [= <-]. cbn [columns index rows Pandas.iloc_slice Pandas.concat].
  split; [reflexivity|]. split.
  - apply py_slice_same_length. apply RangeIndex_length.
  - intros -> ->. now rewrite !py_slice_all.
Qed.

Lemma load_excel_frame_witness :
  columns
    {| columns := [LStr "k"; LStr "v"];
       index := [LInt 1];
       rows := [[CNaN; CInt 5]] |} = columns
    (read_excel [LStr "k"; LStr "v"]
       [[CStr "H"; CInt 1]; [CStr "a"; CInt 2];
        [CStr "H"; CInt 4]; [CStr "b"; CInt 5]]).
Proof.
  apply (load_excel_frame
           {| header_keyword := "H"; start_table := 1; end_table := None;
              data_structure := VNone |}
           (read_excel [LStr "k"; LStr "v"]
              [[CStr "H"; CInt 1]; [CStr "a"; CInt 2];
               [CStr "H"; CInt 4]; [CStr "b"; CInt 5]])).
  reflexivity.
Defined.

(** ** Further properties of the filter *)

Lemma select_sublist {X} (mask : list bool) (xs : list X) :
  sublist (Query.select mask xs) xs.
Proof.
  revert xs. induction mask as [|b mask IH]; intros [|x xs]; simpl;
    try apply sublist_nil_l.
  destruct b; [apply sublist_skip|apply sublist_cons]; apply IH.
Qed.

Lemma select_all {X} (xs : list X) n :
  (length xs <= n)%nat -> Query.select (repeat true n) xs = xs.
Proof.
  revert n. induction xs as [|x xs IH]; intros [|n] H; simpl in *;
    try reflexivity; try lia.
  f_equal. apply IH. lia.
Qed.

(** X6: without a column list, [filter_data] returns the frame with the
    same columns and with rows of the frame in their order, none changed
    and none doubled; the index labels are kept with their rows. *)
Theorem filter_keeps_rows_in_order
    (parse : string -> option expr) (df filtered : DataFrame)
    (where_clause : option string) :
  filter_data parse df None where_clause = Ok filtered ->
  columns filtered = columns df
  /\ sublist (rows filtered) (rows df)
  /\ sublist (index filtered) (index df)
  /\ exists mask,
       rows filtered = Query.select mask (rows df)
       /\ index filtered = Query.select mask (index df).
Proof.
  unfold filter_data. simpl truthy.
  destruct (truthy where_clause) as [clause|].
  - destruct (parse clause) as [e|]; [simpl|discriminate].
    unfold Query.query.
    destruct (Query.eval df e) as [[b|mask]|]; simpl; try discriminate.
    intros [= <-]. simpl. repeat split; try apply select_sublist. eauto.
  - simpl. intros [= <-]. repeat split; try reflexivity.
    exists (repeat true (length (rows df) + length (index df))).
    split; symmetry; apply select_all; lia.
Qed.

Lemma filter_keeps_rows_in_order_witness :
  sublist [[CStr "b"; CInt 25]; [CStr "c"; CInt 25]] (rows example_frame).
Proof.
  apply (filter_keeps_rows_in_order
           (parser_of_clause "SIZE == 25" (ECmp OpEq (TName "SIZE") (TInt 25)))
           example_frame
           {| columns := [LStr "NAME"; LStr "SIZE"];
              index := [LInt 1; LInt 2];
              rows := [[CStr "b"; CInt 25]; [CStr "c"; CInt 25]] |}
           (Some "SIZE == 25")).
  reflexivity.
Defined.

Lemma column_position_found pre name rest :
  ~ In name pre ->
  Query.column_position (map LStr (pre ++ name :: rest)) name
  = Some (length pre).
Proof.
  induction pre as [|p pre IH]; intros Hnot; simpl.
  - now rewrite String.eqb_refl.
  - destruct (String.eqb_spec p name) as [->|_].
    + destruct Hnot. now left.
    + rewrite IH; [reflexivity|]. intros H. apply Hnot. now right.
Qed.

Lemma positions_of_header pre names :
  List.NoDup (pre ++ names) ->
  map_result
    (fun name =>
       match Query.column_position (map LStr (pre ++ names)) name with
       | Some pos => Ok pos
       | None => Raise (KeyError name)
       end) names
  = Ok (seq (length pre) (length names)).
Proof.
  revert pre. induction names as [|name names IH]; intros pre Hnd;
    [reflexivity|].
  simpl. rewrite column_position_found
    by (apply NoDup_remove_2 in Hnd; intros H; apply Hnd, in_or_app; now left).
  simpl.
  specialize (IH (pre ++ [name])%list).
  rewrite <- app_assoc in IH. simpl in IH. rewrite IH by exact Hnd.
  rewrite length_app. simpl. now rewrite Nat.add_1_r.
Qed.

Lemma map_nth_seq_all {X} (d : X) (l : list X) :
  map (fun i => nth i l d) (seq 0 (length l)) = l.
Proof.
  induction l as [|x l IH]; [reflexivity|].
  simpl. f_equal. rewrite <- seq_shift, map_map. exact IH.
Qed.

(** X7: selecting all the columns of the frame, each once and in their
    order, gives the frame back (the labels are strings, no label occurs
    twice and every row has one cell per column). *)
Theorem select_whole_header
    (parse : string -> option expr) (df : DataFrame)
    (cols : string) (names : list string) :
  cols <> EmptyString ->
  Py.split "," cols = names ->
  columns df = map LStr names ->
  List.NoDup names ->
  Forall (fun row => length row = length names) (rows df) ->
  filter_data parse df (Some cols) None = Ok df.
Proof.
  intros Hne Hsplit Hcols Hnd Hrows. unfold filter_data.
  destruct cols as [|c0 cols]; [congruence|].
  cbv beta iota delta [truthy bind].
  rewrite Hsplit. unfold Query.getitem_list. rewrite Hcols.
  pose proof (positions_of_header [] names Hnd) as Hp.
  change ([] ++ names)%list with names in Hp. rewrite Hp.
  cbv beta iota delta [bind].
  destruct df as [c idx rs]. simpl in *. subst c. f_equal. f_equal.
  induction Hrows as [|row rs Hrow _ IH]; [reflexivity|].
  simpl. rewrite IH. f_equal. rewrite <- Hrow. apply map_nth_seq_all.
Qed.

Lemma select_whole_header_witness :
  filter_data (fun _ => None) example_frame (Some "NAME,SIZE") None
  = Ok example_frame.
Proof.
  apply (select_whole_header _ example_frame "NAME,SIZE" ["NAME"; "SIZE"]).
  - discriminate.
  - reflexivity.
  - reflexivity.
  - repeat constructor; simpl; intuition discriminate.
  - repeat constructor.
Defined.

(** ** Further properties of the detection *)

Lemma lstrip_all_space s : all_space s = true -> Py.lstrip s = EmptyString.
Proof.
  induction s as [|c r IH]; [reflexivity|]. simpl.
  destruct (Py.isspace c); [exact IH|discriminate].
Qed.

Lemma lstrip_head s :
  Py.lstrip s = EmptyString /\ all_space s = true
  \/ exists c r, Py.lstrip s = String c r /\ Py.isspace c = false.
Proof.
  induction s as [|c r IH]; [now left|]. simpl.
  destruct (Py.isspace c) eqn:Hc; [exact IH|]. right. eauto.
Qed.

Lemma rstrip_keeps_head c r :
  Py.isspace c = false -> Py.rstrip (String c r) <> EmptyString.
Proof.
  intros Hc. simpl. destruct (Py.rstrip r); [rewrite Hc|]; discriminate.
Qed.

Lemma strip_empty s : Py.strip s = EmptyString <-> all_space s = true.
Proof.
  unfold Py.strip. destruct (lstrip_head s) as [[Hl Hs]|(c & r & Hl & Hc)].
  - rewrite Hl. simpl. tauto.
  - rewrite Hl. split.
    + intros H. now destruct (rstrip_keeps_head c r Hc).
    + intros Hs. apply lstrip_all_space in Hs. congruence.
Qed.

(** X8: detection reports "empty or corrupted" exactly when the first
    line holds white space only, whatever follows it: an empty file, and
    also a file that starts with a blank line before its content. *)
Theorem detect_blank_first_line (file_path text : string) :
  detect_text file_path text = Raise (EmptyOrCorrupted file_path)
  <-> all_space (Py.readline text) = true.
Proof.
  unfold detect_text, classify_first_line. rewrite <- strip_empty.
  destruct (String.eqb_spec (Py.strip (Py.readline text)) EmptyString)
    as [->|Hne]; [tauto|].
  split; [|congruence].
  repeat match goal with
         | |- context [if ?b then _ else _] => destruct b
         end; discriminate.
Qed.

Lemma detect_blank_first_line_witness :
  detect_text "out.json" (String Py.LF "{ }")
  = Raise (EmptyOrCorrupted "out.json").
Proof.
  apply (proj2 (detect_blank_first_line "out.json" (String Py.LF "{ }"))).
  reflexivity.
Defined.

(** X9: what [json.dump] writes for a dict is detected as JSON, also
    when the encoder stopped before the end. *)
Theorem dumped_dict_is_detected_json
    (file_path : string) (entries : list (pykey * pyval)) :
  detect_text file_path (fst (Json.dump (VDict entries))) = Ok json.
Proof.
  unfold Json.dump. destruct entries as [|entry entries]; [reflexivity|].
  cbn [Json.iterencode].
  destruct (Json.join 0 "}" true _) as [body e]. reflexivity.
Qed.

(** X10: what [json.dump] writes for a list is not detected as JSON: a
    document whose top-level value is a list makes the detection fail
    with "unknown format". *)
Theorem dumped_list_is_not_detected
    (file_path : string) (items : list pyval) :
  detect_text file_path (fst (Json.dump (VList items)))
  = Raise UnknownFileFormat.
Proof.
  unfold Json.dump. destruct items as [|item items]; [reflexivity|].
  cbn [Json.iterencode].
  destruct (Json.join 0 "]" true _) as [body e]. reflexivity.
Qed.

(** ** Further properties of the merge store *)

Section UpdateFrame.

Variable cd : Codec.
Variables (fs : filesystem) (output_file : string).
Variables (data : pyval) (parser : ExcelDataTransformer).
Variables (data_group category : string).

(** The files after a call are the files before it, or those with the
    output file rewritten. *)
Lemma update_files :
  snd (update_output_file cd fs output_file data parser data_group category)
  = fs
  \/ exists text,
       snd (update_output_file cd fs output_file data parser
              data_group category)
       = <[output_file := text]> fs.
Proof.
  unfold update_output_file.
  destruct (prepare cd fs output_file data parser data_group category)
    as [printed|e|content output_format]; [now left|now left|].
  right. unfold write_step.
  destruct (match output_format with
            | json => Json.dump content
            | yaml => yaml_dump cd content
            | csv => (EmptyString, None)
            end) as [text e].
  simpl. eauto.
Qed.

End UpdateFrame.

(** X11: [update_output_file] touches no file but the output file, and
    never removes the output file: every other path holds after the call
    what it held before, and an output file that existed still exists. *)
Theorem update_touches_only_output_file
    (cd : Codec) (fs : filesystem) (output_file : string)
    (data : pyval) (parser : ExcelDataTransformer)
    (data_group category : string) :
  (forall path,
      path <> output_file ->
      snd (update_output_file cd fs output_file data parser
             data_group category) !! path
      = fs !! path)
  /\ (is_Some (fs !! output_file) ->
      is_Some (snd (update_output_file cd fs output_file data parser
                      data_group category) !! output_file)).
Proof.
  destruct (update_files cd fs output_file data parser data_group category)
    as [->|[text ->]].
  - split; [reflexivity|auto].
  - split.
    + intros path Hne. now apply lookup_insert_ne.
    + intros _. rewrite lookup_insert_eq. eauto.
Qed.

Lemma update_touches_only_output_file_witness :
  snd (update_output_file (codec_of_text "{ }" (VDict []))
         {["out.json" := "{ }"; "other" := "x"]} "out.json" (VList [])
         example_transformer "G" "C") !! "other"
  = ({["out.json" := "{ }"; "other" := "x"]} : filesystem) !! "other".
Proof.
  apply (update_touches_only_output_file (codec_of_text "{ }" (VDict []))
           {["out.json" := "{ }"; "other" := "x"]} "out.json" (VList [])
           example_transformer "G" "C").
  discriminate.
Defined.

(** With the configuration of [main] the preparation never gets to a
    document to write. *)
Lemma prepare_main_configuration cd (fs : filesystem) output_file data
    data_group category content output_format :
  prepare cd fs output_file data (configure main_config) data_group category
  <> Ready content output_format.
Proof.
  unfold prepare.
  destruct (fs !! output_file) as [text|]; [|discriminate].
  destruct (detect_file_format fs output_file) as [[]|e]; try discriminate.
  - destruct (load_content cd json text) as [[]|]; discriminate.
  - destruct (load_content cd yaml text) as [[]|]; discriminate.
Qed.

(** X12: with the transformer as [main] configures it (no
    [data_structure] given, so the default dict), [update_output_file]
    never writes: for every state of the files and all data the files are
    unchanged after the call; and when the call returns instead of
    raising, it is because the format of the existing file was not
    detected, so the detection that follows in [main] (line 209) raises
    too. *)
Theorem update_with_main_configuration
    (cd : Codec) (fs : filesystem) (output_file : string) (data : pyval)
    (data_group category : string) :
  snd (update_output_file cd fs output_file data (configure main_config)
         data_group category) = fs
  /\ (forall printed,
         fst (update_output_file cd fs output_file data
                (configure main_config) data_group category)
         = Returned printed ->
         exists e, detect_file_format fs output_file = Raise e
                   /\ printed = [ErrorDetectingFileFormat e]).
Proof.
  unfold update_output_file.
  destruct (prepare cd fs output_file data (configure main_config)
              data_group category) as [printed|e|content output_format] eqn:Hp.
  - split; [reflexivity|]. intros printed' [= <-].
    now apply prepare_gave_up in Hp.
  - split; [reflexivity|]. discriminate.
  - now apply prepare_main_configuration in Hp.
Qed.

Lemma update_with_main_configuration_witness :
  exists e, detect_file_format {["out" := "???"]} "out" = Raise e
            /\ [ErrorDetectingFileFormat UnknownFileFormat]
               = [ErrorDetectingFileFormat e].
Proof.
  apply (proj2 (update_with_main_configuration
                  (codec_of_text "{" VNone) {["out" := "???"]} "out"
                  (VList []) "G" "C")).
  unfold update_output_file, prepare, detect_file_format.
  rewrite lookup_singleton_eq. reflexivity.
Defined.

(** X13: a transformer that can create the document cannot update one.
    When a call on a missing file returns after writing, every call with
    the same transformer on an existing file raises or gives up on the
    format, and leaves the files as they are. *)
Theorem create_excludes_update
    (cd : Codec) (fs fs' : filesystem) (output_file output_file' : string)
    (data data' : pyval) (parser : ExcelDataTransformer)
    (data_group category data_group' category' : string) :
  fs !! output_file = None ->
  fst (update_output_file cd fs output_file data parser data_group category)
  = Returned [] ->
  is_Some (fs' !! output_file') ->
  snd (update_output_file cd fs' output_file' data' parser
         data_group' category') = fs'
  /\ fst (update_output_file cd fs' output_file' data' parser
            data_group' category') <> Returned [].
Proof.
  intros Hf Hcreate [text Hf'].
  assert (Hhash : is_ok (Dict.hashable (data_structure parser)) = true).
  { revert Hcreate. unfold update_output_file, prepare, fresh_content.
    rewrite Hf. destruct (Dict.hashable (data_structure parser)); [reflexivity|].
    discriminate. }
  assert (Hget : forall v, Dict.getitem (data_structure parser)
                             "DATA_GROUP_COLLECTION" <> Ok v).
  { intros v Hv. exact (root_key_of_one_branch_only parser v Hhash Hv). }
  unfold update_output_file, prepare. rewrite Hf'.
  destruct (detect_file_format fs' output_file') as [[]|e];
    try (split; [reflexivity|discriminate]).
  - destruct (load_content cd json text) as [[]|]; simpl;
      try (split; [reflexivity|discriminate]).
    destruct (Dict.getitem (data_structure parser) "DATA_GROUP_COLLECTION")
      as [v|] eqn:Hv; [now destruct (Hget v)|].
    split; [reflexivity|discriminate].
  - destruct (load_content cd yaml text) as [[]|]; simpl;
      try (split; [reflexivity|discriminate]).
    destruct (Dict.getitem (data_structure parser) "DATA_GROUP_COLLECTION")
      as [v|] eqn:Hv; [now destruct (Hget v)|].
    split; [reflexivity|discriminate].
Qed.

Lemma create_excludes_update_witness :
  fst (update_output_file (codec_of_text "{ }" (VDict []))
         {["out.json" := "{ }"]} "out.json" (VList [])
         creating_transformer "G" "C") <> Returned [].
Proof.
  apply (create_excludes_update (codec_of_text "{ }" (VDict []))
           ∅ {["out.json" := "{ }"]} "new.json" "out.json"
           (VList []) (VList []) creating_transformer "G" "C" "G" "C").
  - apply lookup_empty.
  - unfold update_output_file, prepare. rewrite lookup_empty. reflexivity.
  - rewrite lookup_singleton_eq. eauto.
Defined.

Lemma set_set d k v w : Dict.set (Dict.set d k v) k w = Dict.set d k w.
Proof.
  induction d as [|[k' v'] d IH]; simpl.
  - now rewrite pykey_eqb_refl.
  - destruct (pykey_eqb k' k) eqn:E; simpl; rewrite E; [reflexivity|].
    now rewrite IH.
Qed.

(** X14: merging the same data at the same place a second time changes
    nothing: the merge of lines 136-137 applied to its own result gives
    that result again. *)
Theorem merge_twice_is_merge_once
    (content merged : pyval) (parser : ExcelDataTransformer)
    (data_group category : string) (data : pyval) :
  merge_into content parser data_group category data = Ok merged ->
  merge_into merged parser data_group category data = Ok merged.
Proof.
  unfold merge_into. destruct content as [| | | |doc|]; try discriminate.
  destruct (Dict.getitem (data_structure parser) "DATA_GROUP_COLLECTION")
    as [root_value|]; [simpl|discriminate].
  destruct (Dict.hashable root_value) as [root|]; [simpl|discriminate].
  destruct (default (VDict []) (Dict.get doc root)) as [| | | |groups|];
    try discriminate.
  destruct (default (VDict []) (Dict.get groups (KStr data_group)))
    as [| | | |categories|]; try discriminate.
  intros [= <-]. dict_simpl. now rewrite !set_set.
Qed.

Lemma merge_twice_is_merge_once_witness :
  merge_into
    (VDict [(KStr "DATA", VDict [(KStr "G", VDict [(KStr "C", VInt 1)])])])
    example_transformer "G" "C" (VInt 1)
  = Ok (VDict [(KStr "DATA", VDict [(KStr "G", VDict [(KStr "C", VInt 1)])])]).
Proof.
  apply (merge_twice_is_merge_once (VDict []) _ example_transformer "G" "C").
  reflexivity.
Defined.





Lemma dump_dict_first_line file_path entries :
  detect_text file_path (fst (Json.iterencode 0 (VDict entries))) = Ok json.
Proof.
  destruct entries as [|entry entries]; [reflexivity|].
  cbn [Json.iterencode].
  destruct (Json.join 0 "}" true _) as [body e]. reflexivity.
Qed.

Lemma merge_into_dict content parser data_group category data merged :
  merge_into content parser data_group category data = Ok merged ->
  (exists doc, content = VDict doc) /\ exists doc', merged = VDict doc'.
Proof.
  unfold merge_into. destruct content as [| | | |doc|]; try discriminate.
  destruct (Dict.getitem _ _); [simpl|discriminate].
  destruct (Dict.hashable _); [simpl|discriminate].
  destruct (default (VDict []) (Dict.get doc _)); try discriminate.
  destruct (default (VDict []) (Dict.get _ (KStr data_group)));
    try discriminate.
  intros [= <-]. eauto.
Qed.

(** X16: two updates of an existing JSON document, one after the other,
    at two different places: when the root key resolves, both merges go
    through, the encoder takes both documents and the decoder reads back
    what the first call wrote, the second call returns with the file
    holding the text of the second document, in which both leaves hold
    their data and every other leaf is what the first text held. *)
Theorem two_updates_compose
    (cd : Codec) (fs : filesystem) (output_file text : string)
    (doc : list (pykey * pyval)) (parser : ExcelDataTransformer)
    (root_value : pyval) (root : pykey)
    (g1 c1 g2 c2 : string) (d1 d2 m1 m2 : pyval) (t1 t2 : string) :
  fs !! output_file = Some text ->
  detect_text output_file text = Ok json ->
  json_loads cd text = Some (VDict doc) ->
  Dict.getitem (data_structure parser) "DATA_GROUP_COLLECTION" = Ok root_value ->
  Dict.hashable root_value = Ok root ->
  merge_into (VDict doc) parser g1 c1 d1 = Ok m1 ->
  Json.dump m1 = (t1, None) ->
  json_loads cd t1 = Some m1 ->
  merge_into m1 parser g2 c2 d2 = Ok m2 ->
  Json.dump m2 = (t2, None) ->
  (g1, c1) <> (g2, c2) ->
  update_output_file cd
    (snd (update_output_file cd fs output_file d1 parser g1 c1))
    output_file d2 parser g2 c2
  = (Returned [], <[output_file := t2]> fs)
  /\ leaf m2 root g1 c1 = Some d1
  /\ leaf m2 root g2 c2 = Some d2
  /\ (forall g c, (g, c) <> (g1, c1) -> (g, c) <> (g2, c2) ->
        leaf m2 root g c = leaf (VDict doc) root g c).
Proof.
  intros Hf Hd Hl Hroot Hhash Hm1 Ht1 Hl1 Hm2 Ht2 Hne.
  destruct (merge_into_dict _ _ _ _ _ _ Hm1) as [_ [doc1 ->]].
  destruct (merge_into_frame _ _ _ _ _ _ _ _ Hroot Hhash Hm1)
    as (Hleaf1 & Hother1 & _).
  destruct (merge_into_frame _ _ _ _ _ _ _ _ Hroot Hhash Hm2)
    as (Hleaf2 & Hother2 & _).
  split; [|split; [|split]].
  - rewrite (update_existing cd fs output_file d1 parser g1 c1 text json
               (VDict doc) (VDict doc1))
      by (try assumption; try discriminate; unfold load_content; now rewrite Hl).
    unfold write_step. rewrite Ht1. cbv beta iota. cbn [snd].
    rewrite (update_existing cd (<[output_file := t1]> fs) output_file d2
               parser g2 c2 t1 json (VDict doc1) m2).
    + unfold write_step. rewrite Ht2. cbv beta iota.
      now rewrite insert_insert_eq.
    + apply lookup_insert_eq.
    + replace t1 with (fst (Json.dump (VDict doc1))) by now rewrite Ht1.
      apply dump_dict_first_line.
    + discriminate.
    + unfold load_content. now rewrite Hl1.
    + exact Hm2.
  - rewrite Hother2 by congruence. exact Hleaf1.
  - exact Hleaf2.
  - intros g c Hn1 Hn2. rewrite Hother2 by exact Hn2. now apply Hother1.
Qed.

Lemma two_updates_compose_witness :
  leaf (VDict [(KStr "DATA",
                VDict [(KStr "G", VDict [(KStr "A", VInt 1);
                                         (KStr "B", VInt 2)])])])
    (KStr "DATA") "G" "A" = Some (VInt 1).
Proof.
  apply (two_updates_compose
           (codec_of_texts "{ }" (VDict [])
              (fst (Json.dump
                      (VDict [(KStr "DATA",
                               VDict [(KStr "G", VDict [(KStr "A", VInt 1)])])])))
              (VDict [(KStr "DATA",
                       VDict [(KStr "G", VDict [(KStr "A", VInt 1)])])]))
           {["out.json" := "{ }"]} "out.json" "{ }" [] example_transformer
           (VStr "DATA") (KStr "DATA") "G" "A" "G" "B" (VInt 1) (VInt 2)
           (VDict [(KStr "DATA",
                    VDict [(KStr "G", VDict [(KStr "A", VInt 1)])])])
           (VDict [(KStr "DATA",
                    VDict [(KStr "G", VDict [(KStr "A", VInt 1);
                                             (KStr "B", VInt 2)])])])
           (fst (Json.dump
                   (VDict [(KStr "DATA",
                            VDict [(KStr "G", VDict [(KStr "A", VInt 1)])])])))
           (fst (Json.dump
                   (VDict [(KStr "DATA",
                            VDict [(KStr "G", VDict [(KStr "A", VInt 1);
                                                     (KStr "B", VInt 2)])])]))));
    try reflexivity; try discriminate; try apply lookup_singleton_eq.
Defined.

(** ** The column list *)

Lemma split_nonempty sep s : Py.split sep s <> [].
Proof.
  destruct s as [|c r]; simpl; [discriminate|].
  destruct (Ascii.eqb c sep); [discriminate|].
  destruct (Py.split sep r); discriminate.
Qed.

(** X17: the column list of [filter_data] is cut at every comma and
    nowhere else: no piece holds a comma, there is always at least one
    piece, and the pieces joined by commas are the list as it was given;
    blanks around a name stay part of the name. *)
Theorem split_at_commas (s : string) :
  String.concat "," (Py.split "," s) = s
  /\ Forall (fun name => Py.contains "," name = false) (Py.split "," s)
  /\ Py.split "," s <> [].
Proof.
  split; [|split; [|apply split_nonempty]].
  - induction s as [|c r IH]; [reflexivity|]. simpl.
    pose proof (split_nonempty "," r) as Hne.
    destruct (Ascii.eqb_spec c ",") as [->|Hc].
    + destruct (Py.split "," r) as [|w ws]; [congruence|].
      change (String.concat "," (EmptyString :: w :: ws))
        with (String "," (String.concat "," (w :: ws))).
      now rewrite IH.
    + destruct (Py.split "," r) as [|w ws]; [congruence|].
      rewrite <- IH. destruct ws; reflexivity.
  - induction s as [|c r IH]; [repeat constructor|]. simpl.
    destruct (Ascii.eqb_spec c ",") as [->|Hc].
    + constructor; [reflexivity|exact IH].
    + destruct (Py.split "," r) as [|w ws].
      * repeat constructor. simpl.
        destruct (Ascii.eqb_spec c ","); [congruence|reflexivity].
      * inversion IH as [|? ? Hw Hws]; subst. constructor; [|exact Hws].
        simpl. destruct (Ascii.eqb_spec c ","); [congruence|exact Hw].
Qed.

(** ** Writing and detecting *)

(** X18: a file [update_output_file] has written as JSON is detected as
    JSON afterwards: when the call returns after creating the file, or
    after updating a file that was detected as JSON, the detection on the
    new text answers JSON, so [main] prints the JSON preview and the next
    run finds a JSON document. *)
Theorem written_json_is_detected_json
    (cd : Codec) (fs : filesystem) (output_file : string)
    (data : pyval) (parser : ExcelDataTransformer)
    (data_group category : string) :
  fs !! output_file = None \/ detect_file_format fs output_file = Ok json ->
  fst (update_output_file cd fs output_file data parser data_group category)
  = Returned [] ->
  detect_file_format
    (snd (update_output_file cd fs output_file data parser
            data_group category)) output_file
  = Ok json.
Proof.
  intros Hcase. unfold update_output_file, prepare.
  destruct (fs !! output_file) as [text|] eqn:Hf.
  - destruct Hcase as [|Hd]; [discriminate|]. rewrite Hd.
    destruct (load_content cd json text) as [content|]; [simpl|discriminate].
    destruct (merge_into content parser data_group category data)
      as [merged|] eqn:Hm; [|discriminate].
    destruct (merge_into_dict _ _ _ _ _ _ Hm) as [_ [doc' ->]].
    unfold write_step.
    pose proof (dump_dict_first_line output_file doc') as Hfirst.
    unfold Json.dump.
    destruct (Json.iterencode 0 (VDict doc')) as [written e].
    cbn [fst snd]. intros _. unfold detect_file_format.
    rewrite lookup_insert_eq. exact Hfirst.
  - unfold fresh_content.
    destruct (Dict.hashable (data_structure parser)) as [root|];
      [simpl|discriminate].
    unfold write_step.
    pose proof (dump_dict_first_line output_file
                  [(root, VDict [(KStr data_group,
                                  VDict [(KStr category, data)])])])
      as Hfirst.
    unfold Json.dump.
    destruct (Json.iterencode 0 _) as [written e].
    cbn [fst snd]. intros _. unfold detect_file_format.
    rewrite lookup_insert_eq. exact Hfirst.
Qed.

Lemma written_json_is_detected_json_witness :
  detect_file_format
    (snd (update_output_file (codec_of_text "{ }" (VDict [])) ∅ "new.json"
            (VList [VInt 1]) creating_transformer "G" "C")) "new.json"
  = Ok json.
Proof.
  apply (written_json_is_detected_json (codec_of_text "{ }" (VDict [])) ∅
           "new.json" (VList [VInt 1]) creating_transformer "G" "C").
  - left. apply lookup_empty.
  - unfold update_output_file, prepare. rewrite lookup_empty. reflexivity.
Defined.
